(** * A shallow embedding of the py2dist build orchestrator

    Sources: [src/py2dist/compiler.py] (file resolution, build driver,
    output collection) and [src/py2dist/cli.py] (exclusion parsing and the
    command-line driver).  Paths are POSIX strings, [os.path.sep = "/"]. *)

From Stdlib Require Import String Ascii List Bool Arith Lia Permutation.
Import ListNotations.
Open Scope string_scope.

(** ** Python string and path helpers *)

(** [str.startswith] *)
Definition startswith (s pre : string) : bool := String.prefix pre s.

(** [str.endswith]: some suffix of [s] equals [suf]. *)
Fixpoint endswith (s suf : string) : bool :=
  String.eqb s suf ||
  match s with
  | EmptyString => false
  | String _ s' => endswith s' suf
  end.

(** [str.lower] on ASCII. *)
Definition lower_ascii (c : ascii) : ascii :=
  let n := nat_of_ascii c in
  if ((65 <=? n) && (n <=? 90))%nat then ascii_of_nat (n + 32)%nat else c.

Fixpoint lower (s : string) : string :=
  match s with
  | EmptyString => EmptyString
  | String c s' => String (lower_ascii c) (lower s')
  end.

Fixpoint has_char (c : ascii) (s : string) : bool :=
  match s with
  | EmptyString => false
  | String a s' => Ascii.eqb a c || has_char c s'
  end.

(** [str.rfind] for one character; [None] stands for Python's [-1]. *)
Fixpoint rfind (c : ascii) (s : string) : option nat :=
  match s with
  | EmptyString => None
  | String a s' =>
      match rfind c s' with
      | Some i => Some (S i)
      | None => if Ascii.eqb a c then Some 0 else None
      end
  end.

Fixpoint all_dots (s : string) : bool :=
  match s with
  | EmptyString => true
  | String a s' => Ascii.eqb a "." && all_dots s'
  end.

(** [posixpath.splitext] (via [genericpath._splitext]): the extension starts
    at the last dot of the base name, unless the base name is only dots up
    to that point. *)
Definition splitext (p : string) : string * string :=
  match rfind "." p with
  | None => (p, "")
  | Some di =>
      let start := match rfind "/" p with None => 0 | Some si => S si end in
      if (start <=? di)%nat then
        if negb (all_dots (substring start (di - start)%nat p))
        then (substring 0 di p, substring di (String.length p - di)%nat p)
        else (p, "")
      else (p, "")
  end.

(** [posixpath.join] of two components. *)
Definition join (a b : string) : string :=
  if startswith b "/" then b
  else if String.eqb a "" then b
  else if endswith a "/" then a ++ b
  else a ++ "/" ++ b.

(** ** [get_files_in_dir] and the source tree *)

(** The extension filter [ext_names]: [None] is ["*"], [Some es] a list of
    lower-cased extensions. *)
Definition ext_names (l : list string) : option (list string) :=
  Some (map lower l).

Definition all_exts : option (list string) := None.

(** The extension [match_ext] looks at: the whole name for dot files. *)
Definition ext_of (fname : string) : string :=
  if startswith fname "." then fname else snd (splitext fname).

Definition match_ext (exts : option (list string)) (fname : string) : bool :=
  match exts with
  | None => true
  | Some es => existsb (String.eqb (lower (ext_of fname))) es
  end.

(** A file found by [os.walk] under the source directory: the walk root
    relative to the source directory ([root[base_len:].lstrip(sep)]) and
    the file name. *)
Record entry := mkEntry { e_dir : string; e_name : string }.

(** The source tree: its sub-directories (relative, in normal form) and its
    files in [os.walk] order. *)
Record src_tree := mkTree { st_dirs : list string; st_files : list entry }.

Definition rel_path (e : entry) : string := join (e_dir e) (e_name e).

(** [get_files_in_dir(source_dir, True, 1, exts)]. *)
Definition get_files_in_dir_rel (T : src_tree) (exts : option (list string))
  : list string :=
  map rel_path (filter (fun e => match_ext exts (e_name e)) (st_files T)).

(** Files as [os.walk] produces them: a non-empty name without separator,
    and a relative directory without leading, trailing or doubled
    separator. *)
Fixpoint no_double_slash (s : string) : bool :=
  match s with
  | EmptyString => true
  | String c s' => negb (Ascii.eqb c "/" && startswith s' "/") && no_double_slash s'
  end.

Definition wf_entry (e : entry) : bool :=
  negb (String.eqb (e_name e) "") && negb (has_char "/" (e_name e)) &&
  negb (startswith (e_dir e) "/") && negb (endswith (e_dir e) "/") &&
  no_double_slash (e_dir e).

Definition wf_tree (T : src_tree) : bool := forallb wf_entry (st_files T).

(** ** Python sets *)

Definition mem (x : string) (l : list string) : bool := existsb (String.eqb x) l.

(** [list(set(a) - set(b))]: the members of [a] not in [b], without
    duplicates.  Python fixes no order; this is one of the possible ones. *)
Definition py_set_diff (a b : list string) : list string :=
  nodup string_dec (filter (fun x => negb (mem x b)) a).

(** ** [CompileOptions] and file resolution ([Compiler._get_compile_files]) *)

Record CompileOptions := mkOptions {
  source_file : option string;
  source_dir : option string;
  exclude_files : list string;
  output_dir : string;
  release : bool }.

Definition set_excludes (o : CompileOptions) (l : list string) : CompileOptions :=
  mkOptions (source_file o) (source_dir o) l (output_dir o) (release o).

(** Python truthiness of an optional string. *)
Definition py_opt (o : option string) : option string :=
  match o with
  | Some EmptyString => None
  | x => x
  end.

Inductive error :=
| FileNotFoundError (path : string)
| ValueError (msg : string)
| RuntimeError (msg : string)
| PyCompileError (path : string)
| SameFileError (path : string).

Inductive result (A : Type) :=
| Ok (a : A)
| Err (e : error).
Arguments Ok {A} a.
Arguments Err {A} e.

(** The relative paths kept by lines 105-114. *)
Definition compile_rel (T : src_tree) (excl : list string) : list string :=
  let pyfiles := get_files_in_dir_rel T (ext_names [".py"]) in
  let pyfiles := filter (fun f => negb (endswith f "__init__.py")) pyfiles in
  py_set_diff pyfiles excl.

(** [_get_compile_files]; [ex] answers [os.path.exists]. *)
Definition get_compile_files (ex : string -> bool) (T : src_tree)
    (opts : CompileOptions) : result (list string) :=
  let dir_files :=
    match py_opt (source_dir opts) with
    | Some sd =>
        if ex sd then Ok (map (join sd) (compile_rel T (exclude_files opts)))
        else Err (FileNotFoundError sd)
    | None => Ok []
    end in
  match dir_files with
  | Err e => Err e
  | Ok files =>
      match py_opt (source_file opts) with
      | Some sf =>
          if negb (endswith sf ".py")
          then Err (ValueError "Source file must be a .py file")
          else if negb (ex sf) then Err (FileNotFoundError sf)
          else Ok (files ++ [sf])%list
      | None => Ok files
      end
  end.

(** [_get_non_compile_files]. *)
Definition get_non_compile_files (T : src_tree) (opts : CompileOptions)
    (compile_files : list string) : list string :=
  match py_opt (source_dir opts) with
  | None => []
  | Some sd =>
      let all_files := get_files_in_dir_rel T all_exts in
      let all_files :=
        map (join sd) (filter (fun f => negb (endswith f ".pyc")) all_files) in
      py_set_diff all_files compile_files
  end.

(** The branch [_collect_output] takes for one non-compiled file (lines
    246-253): bytecode for a name ending in [__init__.py], a byte copy
    otherwise. *)
Inductive out_action :=
| CopyFile (src dst : string)
| InitToPyc (src dst : string).

Definition collect_action (work_dir out_dir nc : string) : out_action :=
  let dest_path := join out_dir nc in
  let src_path := join work_dir nc in
  if endswith nc "__init__.py" then InitToPyc src_path dest_path
  else CopyFile src_path dest_path.

(** The classes of the resolved source directory. *)
Definition non_bytecode_files (sd : string) (T : src_tree) : list string :=
  map (join sd)
    (filter (fun f => negb (endswith f ".pyc")) (get_files_in_dir_rel T all_exts)).

Definition package_init_files (sd : string) (T : src_tree) : list string :=
  filter (fun p => endswith p "__init__.py") (non_bytecode_files sd T).

(** The non-compiled files [_collect_output] byte-copies. *)
Definition verbatim_files (N : list string) : list string :=
  filter (fun p => negb (endswith p "__init__.py")) N.

(** ** Exclusion entries ([cli.parse_exclude_files]) *)

Fixpoint string_rev (s : string) : string :=
  match s with
  | EmptyString => EmptyString
  | String c s' => string_rev s' ++ String c EmptyString
  end.

Fixpoint lstrip_by (f : ascii -> bool) (s : string) : string :=
  match s with
  | String c s' => if f c then lstrip_by f s' else s
  | EmptyString => EmptyString
  end.

(** The characters [str.strip()] removes (ASCII whitespace). *)
Definition is_py_space (c : ascii) : bool :=
  existsb (Ascii.eqb c) [" "; "009"; "010"; "011"; "012"; "013"]%char.

(** [str.strip()] *)
Definition strip (s : string) : string :=
  string_rev (lstrip_by is_py_space (string_rev (lstrip_by is_py_space s))).

(** [str.rstrip(os.path.sep)] *)
Definition rstrip_sep (s : string) : string :=
  string_rev (lstrip_by (Ascii.eqb "/") (string_rev s)).

(** [str.rstrip('/\\')] *)
Definition rstrip_seps (s : string) : string :=
  string_rev (lstrip_by (fun c => Ascii.eqb c "/" || Ascii.eqb c "\") (string_rev s)).

(** [str.replace] of one character by another. *)
Fixpoint replace_char (a b : ascii) (s : string) : string :=
  match s with
  | EmptyString => EmptyString
  | String c s' => String (if Ascii.eqb c a then b else c) (replace_char a b s')
  end.

(** [s.replace('/', sep).replace('\\', sep)] with [sep = "/"]. *)
Definition normalize_sep (s : string) : string := replace_char "\" "/" s.

(** [str.split(c)] *)
Fixpoint split_on (c : ascii) (s : string) : list string :=
  match s with
  | EmptyString => [""]
  | String a s' =>
      let rest := split_on c s' in
      if Ascii.eqb a c then "" :: rest
      else match rest with
           | x :: xs => String a x :: xs
           | [] => [String a EmptyString]
           end
  end.

(** [s[n:]] *)
Fixpoint drop (n : nat) (s : string) : string :=
  match n, s with
  | O, _ => s
  | S n', String _ s' => drop n' s'
  | S _, EmptyString => EmptyString
  end.

(** [os.path.isdir(os.path.join(root_dir, d))] for a path [d] relative to
    the source directory; directories outside the source tree are not
    modelled ([join] discards [root_dir] for an absolute [d]). *)
Definition isdir_rel (T : src_tree) (d : string) : bool :=
  negb (startswith d "/") && (String.eqb d "" || mem d (st_dirs T)).

(** The walk root [root[base_len:].lstrip(sep)] of [os.walk(join(root_dir, d))]
    for a file whose directory relative to the source directory is [dir]. *)
Definition rel_under (d dir : string) : option string :=
  if String.eqb d "" then Some dir
  else if String.eqb dir d then Some ""
  else if startswith dir (d ++ "/") then Some (drop (String.length d + 1) dir)
  else None.

(** [get_files_in_dir(join(root_dir, d), True, 1)]: every file under [d],
    any extension, relative to [d]. *)
Definition files_under (T : src_tree) (d : string) : list string :=
  flat_map (fun e => match rel_under d (e_dir e) with
                     | Some r => [join r (e_name e)]
                     | None => []
                     end) (st_files T).

(** The loop body of [parse_exclude_files] for one comma-separated entry. *)
Definition exclude_entry (root_dir : string) (T : src_tree) (raw : string)
  : list string :=
  let root_norm := normalize_sep root_dir in
  let root_prefix := root_norm ++ "/" in
  let path := strip raw in
  if String.eqb path "" then [] else
  let path := normalize_sep path in
  let kept :=
    if startswith path root_prefix
    then Some (drop (String.length root_prefix) path)
    else if String.eqb path root_norm then None
    else Some path in
  match kept with
  | None => []
  | Some path =>
      if endswith path "/" then
        let dir_path := rstrip_sep path in
        if isdir_rel T dir_path
        then map (join dir_path) (files_under T dir_path)
        else []
      else [path]
  end.

Definition parse_exclude_files (value root_dir : string) (T : src_tree)
  : list string :=
  flat_map (exclude_entry root_dir T) (split_on "," value).

(** ** The file system and the build driver ([Compiler.compile]) *)

(** The files present, by path.  Directories are implicit: [make_dirs] and
    [os.rmdir] have no effect on files and are not modelled. *)
Definition fs := list string.

Inductive event :=
| EvRemoveTree (d : string)
| EvWrite (p : string)
| EvRemove (p : string)
| EvToolchain (files : list string)
| EvBytecode (target : string) (in_place : bool).

Record state := mkState { s_fs : fs; s_trace : list event }.

(** A state and error monad: Python exceptions are [Err]. *)
Definition M (A : Type) : Type := state -> result A * state.

Definition ret {A : Type} (a : A) : M A := fun s => (Ok a, s).

Definition bind {A B : Type} (m : M A) (k : A -> M B) : M B :=
  fun s => match m s with
           | (Ok a, s') => k a s'
           | (Err e, s') => (Err e, s')
           end.

Definition raise {A : Type} (e : error) : M A := fun s => (Err e, s).

(** [try: ... except Exception: ...] *)
Definition catch {A : Type} (m : M A) (h : error -> M A) : M A :=
  fun s => match m s with
           | (Err e, s') => h e s'
           | r => r
           end.

Notation "x <- m ;; k" := (bind m (fun x => k))
  (at level 61, m at next level, right associativity).
Notation "m ;;; k" := (bind m (fun _ => k))
  (at level 61, right associativity).

Definition get_fs : M fs := fun s => (Ok (s_fs s), s).

Definition emit (ev : event) : M unit :=
  fun s => (Ok tt, mkState (s_fs s) (s_trace s ++ [ev])%list).

Fixpoint mapM_ {A : Type} (f : A -> M unit) (l : list A) : M unit :=
  match l with
  | [] => ret tt
  | x :: l' => f x ;;; mapM_ f l'
  end.

(** [os.path.isdir]: some file lies below [d]. *)
Definition isdir (d : string) (f : fs) : bool :=
  existsb (fun p => startswith p (d ++ "/")) f.

(** [if os.path.isdir(d): shutil.rmtree(d)] *)
Definition rmtree (d : string) : M unit :=
  fun s =>
    if isdir d (s_fs s)
    then (Ok tt, mkState (filter (fun p => negb (startswith p (d ++ "/"))) (s_fs s))
                         (s_trace s ++ [EvRemoveTree d])%list)
    else (Ok tt, s).

(** Creating or overwriting a file ([open(..., "w")], [shutil.copy],
    [shutil.copyfile]). *)
Definition write_file (p : string) : M unit :=
  fun s => (Ok tt, mkState (if mem p (s_fs s) then s_fs s else s_fs s ++ [p])%list
                           (s_trace s ++ [EvWrite p])%list).

(** [os.remove] *)
Definition remove_file (p : string) : M unit :=
  fun s =>
    if mem p (s_fs s)
    then (Ok tt, mkState (filter (fun q => negb (String.eqb q p)) (s_fs s))
                         (s_trace s ++ [EvRemove p])%list)
    else (Err (FileNotFoundError p), s).

(** [os.path.basename] *)
Definition basename (p : string) : string :=
  match rfind "/" p with
  | None => p
  | Some i => substring (S i) (String.length p - S i) p
  end.

Fixpoint all_slashes (s : string) : bool :=
  match s with
  | EmptyString => true
  | String c s' => Ascii.eqb c "/" && all_slashes s'
  end.

(** [os.path.dirname] *)
Definition dirname (p : string) : string :=
  let i := match rfind "/" p with None => 0 | Some k => S k end in
  let head := substring 0 i p in
  if String.eqb head "" || all_slashes head then head else rstrip_sep head.

(** [os.listdir(d)], files only. *)
Definition listdir (d : string) (f : fs) : list string :=
  map (drop (String.length d + 1))
    (filter (fun p => startswith p (d ++ "/") &&
                      negb (has_char "/" (drop (String.length d + 1) p))) f).

(** [str.rpartition(c)] *)
Definition rpartition (c : ascii) (s : string) : string * string * string :=
  match rfind c s with
  | Some i => (substring 0 i s, String c EmptyString,
               substring (S i) (String.length s - S i) s)
  | None => ("", "", s)
  end.

(** [s.rsplit('.', 2)[0]] *)
Definition rsplit2_head (s : string) : string :=
  match rfind "." s with
  | None => s
  | Some i =>
      let h := substring 0 i s in
      match rfind "." h with
      | None => h
      | Some j => substring 0 j h
      end
  end.

(** [os.path.exists] *)
Definition exists_path (p : string) (f : fs) : bool := mem p f || isdir p f.

(** [shutil.move] within one file system ([os.rename]). *)
Definition move_file (src dst : string) : M unit := write_file dst ;;; remove_file src.

(** A loop that appends what each step returns to one list. *)
Fixpoint concatMapM {A B : Type} (f : A -> M (list B)) (l : list A) : M (list B) :=
  match l with
  | [] => ret []
  | x :: l' => ys <- f x ;; zs <- concatMapM f l' ;; ret (ys ++ zs)%list
  end.

(** [Compiler._validate_options] *)
Definition validate_options (opts : CompileOptions) : result unit :=
  match py_opt (source_file opts), py_opt (source_dir opts) with
  | Some _, Some _ => Err (ValueError "Cannot use both source_file and source_dir")
  | None, None => Err (ValueError "Must specify source_file or source_dir")
  | _, _ => Ok tt
  end.

(** The extension module name the build script gives a listed file
    ([BUILD_SCRIPT_TEMPLATE], line 26):
    [rel_filename[:-3].replace(os.path.sep, '.')]. *)
Definition mod_name (rel_filename : string) : string :=
  replace_char "/" "." (substring 0 (String.length rel_filename - 3) rel_filename).

(** Whether some component of a relative path is [__pycache__]: the walk of
    [compileall.compile_dir] skips every entry of that name. *)
Definition in_pycache_path (r : string) : bool :=
  existsb (String.eqb "__pycache__") (split_on "/" r).

Section Build.

(** [platform.system() == "Windows"] *)
Variable is_windows : bool.

(** The external toolchain run on a build script for [files]: its exit
    status and the artifacts it leaves in the build directory (relative to
    it), also when it fails part-way. *)
Variable toolchain : list string -> nat * list string.

(** Whether [py_compile] accepts a source file. *)
Variable py_ok : string -> bool.

(** The interpreter's cache tag, as in [__init__.cpython-312.pyc]. *)
Variable cache_tag : string.

(** [os.getcwd()] at construction ([self._work_dir]). *)
Variable work_dir : string.

Definition build_dir : string := join work_dir ".py2dist/build".

Definition script_path : string := join (join work_dir ".py2dist") "build.py".

(** [os.path.abspath] of a path in normal form (no [.] or [..] component,
    no doubled or trailing separator). *)
Definition abspath (p : string) : string :=
  if startswith p "/" then p else join work_dir p.

(** [os.path.relpath(p, start)] for [p] equal to [start] or below it, the
    only case the command line reaches. *)
Definition relpath (p start : string) : string :=
  if String.eqb p start then "."
  else if startswith p (start ++ "/") then drop (String.length start + 1) p
  else p.

(** The module files the build script lists ([rel_files]). *)
Definition build_rel_files (opts : CompileOptions) (files : list string)
  : list string :=
  match py_opt (source_dir opts) with
  | Some sd =>
      let source_dir_name := basename (abspath sd) in
      map (fun f => join source_dir_name (relpath f sd)) files
  | None => map basename files
  end.

(** [_generate_build_script]: of the script's text only the listed files
    are kept; they are what the toolchain builds. *)
Definition generate_build_script (opts : CompileOptions) (files : list string)
  : M (list string) :=
  write_file script_path ;;; ret (build_rel_files opts files).

(** [_run_cython_build] on a script listing [files]: the child process
    writes its artifacts; a non-zero exit status raises. *)
Definition run_cython_build (files : list string) : M unit :=
  emit (EvToolchain files) ;;;
  let '(code, arts) := toolchain files in
  mapM_ (fun a => write_file (join build_dir a)) arts ;;;
  if Nat.eqb code 0 then ret tt else raise (RuntimeError "Cython build failed").

(** [_clear_build_folders] *)
Definition clear_build_folders (opts : CompileOptions) : M unit :=
  mapM_ (fun folder => rmtree (join work_dir folder))
    [".py2dist/build"; ".py2dist/build_c"; ".py2dist/build_tmp"; output_dir opts].

(** [_clear_tmp_files] *)
Definition clear_tmp_files : M unit := rmtree (join work_dir ".py2dist").

(** [get_files_in_dir(build_dir, True, 1, [".so", ".pyd"])] *)
Definition staged_artifacts (f : fs) : list string :=
  filter (fun r => match_ext (ext_names [".so"; ".pyd"]) (basename r))
    (map (drop (String.length build_dir + 1))
         (filter (fun p => startswith p (build_dir ++ "/")) f)).

(** The destination of one staged artifact (lines 237-242). *)
Definition native_dest (out file : string) : string :=
  let parts := split_on "/" file in
  let name_parts := split_on "." (basename (join build_dir file)) in
  let file_name := String.concat "." [hd "" name_parts; last name_parts ""] in
  let mid_path := String.concat "/" (removelast parts) in
  join (join out mid_path) file_name.

(** [_compile_init_to_pyc]: [py_compile] writes
    [__pycache__/<base>.<tag>.pyc]; the first listed cache file of that
    module is copied to [dest] with extension [.pyc] and removed. *)
Definition compile_init_to_pyc (src dest : string) : M unit :=
  if negb (py_ok src) then raise (PyCompileError src) else
  let cache_dir := join (dirname src) "__pycache__" in
  let base_name := fst (splitext (basename src)) in
  write_file (join cache_dir (base_name ++ "." ++ cache_tag ++ ".pyc")) ;;;
  f <- get_fs ;;
  if isdir cache_dir f then
    match find (fun n => startswith n base_name && endswith n ".pyc")
               (listdir cache_dir f) with
    | Some n =>
        let pyc_src := join cache_dir n in
        let pyc_dest := fst (splitext dest) ++ ".pyc" in
        write_file pyc_dest ;;; remove_file pyc_src
    | None => ret tt
    end
  else ret tt.

(** [shutil.copyfile], which refuses to copy a file onto itself. *)
Definition copyfile (src dst : string) : M unit :=
  if String.eqb src dst then raise (SameFileError src)
  else write_file dst.

(** [_collect_output] *)
Definition collect_output (T : src_tree) (opts : CompileOptions)
    (compile_files : list string) : M unit :=
  let out := join work_dir (output_dir opts) in
  f <- get_fs ;;
  mapM_ (fun file => write_file (native_dest out file)) (staged_artifacts f) ;;;
  mapM_ (fun nc => match collect_action work_dir out nc with
                   | CopyFile src dst => copyfile src dst
                   | InitToPyc src dst => compile_init_to_pyc src dst
                   end)
        (get_non_compile_files T opts compile_files).

(** The per-file path: one script and one toolchain run per file. *)
Definition build_each (opts : CompileOptions) (files : list string) : M unit :=
  mapM_ (fun file => script <- generate_build_script opts [file] ;;
                     run_cython_build script) files.

(** [Compiler.compile]; the temporary directory it creates and removes lies
    outside the modelled paths. *)
Definition compile (ex : string -> bool) (T : src_tree) (opts : CompileOptions)
  : M string :=
  match get_compile_files ex T opts with
  | Err e => raise e
  | Ok [] => raise (ValueError "No files to compile")
  | Ok compile_files =>
      clear_build_folders opts ;;;
      (if is_windows then build_each opts compile_files
       else script <- generate_build_script opts compile_files ;;
            run_cython_build script) ;;;
      collect_output T opts compile_files ;;;
      (if release opts then clear_tmp_files else ret tt) ;;;
      ret (output_dir opts)
  end.

(** [Compiler(opts).compile()]: the constructor validates the options. *)
Definition compiler_compile (ex : string -> bool) (T : src_tree) (opts : CompileOptions)
  : M string :=
  match validate_options opts with
  | Err e => raise e
  | Ok _ => compile ex T opts
  end.

(** [compile_file] (its [release] defaults to [True]); a single file has no
    source tree, the empty one stands for it. *)
Definition compile_file (ex : string -> bool) (source output_dir : string)
    (release : bool) : M string :=
  compiler_compile ex (mkTree [] [])
    (mkOptions (Some source) None [] output_dir release).

(** [compile_dir] (its [release] defaults to [True]); [T] is the tree of the
    source directory. *)
Definition compile_dir (ex : string -> bool) (T : src_tree) (source output_dir : string)
    (exclude : option (list string)) (release : bool) : M string :=
  compiler_compile ex T
    (mkOptions None (Some (rstrip_sep source))
       (match exclude with Some l => l | None => [] end) output_dir release).

(** [_dfile_for_path] *)
Definition dfile_for_path (path : string) (root : option string) : string :=
  match py_opt root with
  | Some r => relpath path r
  | None => basename path
  end.

(** [Compiler._dfile_root] *)
Definition dfile_root (opts : CompileOptions) : option string :=
  match py_opt (source_dir opts) with
  | Some sd => Some (dirname (abspath sd))
  | None =>
      match py_opt (source_file opts) with
      | Some sf => Some (dirname (abspath sf))
      | None => None
      end
  end.

(** ** Bytecode compilation ([compile_to_bytecode]) *)

(** [importlib.util.cache_from_source] (no [pycache_prefix], no
    optimization level): [_path_split], [str.rpartition('.')] of the file
    name, and [_path_join], which drops empty parts and strips trailing
    separators. *)
Definition cache_from_source (path : string) : string :=
  let '(head, tail) :=
    match rfind "/" path with
    | Some i => (substring 0 i path, substring (S i) (String.length path - S i) path)
    | None => ("", path)
    end in
  let '(base, sep, rest) := rpartition "." tail in
  let almost := ((if String.eqb base "" then rest else base) ++ sep ++ cache_tag)%string in
  String.concat "/"
    (map rstrip_sep (filter (fun x => negb (String.eqb x ""))
                            [head; "__pycache__"; almost ++ ".pyc"])).

(** [py_compile.compile(src, doraise=True)]: the cache file, or
    [PyCompileError]. *)
Definition py_compile_file (src : string) : M unit :=
  if py_ok src then write_file (cache_from_source src) else raise (PyCompileError src).

(** The files [compileall.compile_dir(top, force=True)] byte-compiles: the
    files below [top], outside every [__pycache__] directory, whose name
    ends in [.py] ([name[-3:] == '.py']). *)
Definition compileall_files (top : string) (f : fs) : list string :=
  filter (fun p => startswith p (top ++ "/") &&
                   negb (in_pycache_path (drop (String.length top + 1) p)) &&
                   endswith (basename p) ".py") f.

(** [compile_file] of [compileall] for each file: a failure makes the result
    false and the walk goes on. *)
Fixpoint compile_each (l : list string) : M bool :=
  match l with
  | [] => ret true
  | p :: l' =>
      ok <- (if py_ok p then write_file (cache_from_source p) ;;; ret true
             else ret false) ;;
      rest <- compile_each l' ;;
      ret (ok && rest)
  end.

(** [compileall.compile_dir(top, force=True, ...)] *)
Definition compileall_compile_dir (top : string) : M bool :=
  f <- get_fs ;; compile_each (compileall_files top f).

(** The directories [root] of [os.walk(top)] whose [__pycache__]
    sub-directory holds a file, each once. *)
Definition pycache_roots (top : string) (f : fs) : list string :=
  nodup string_dec
    (flat_map (fun p =>
                 let c := dirname p in
                 if String.eqb (basename c) "__pycache__" &&
                    (String.eqb (dirname c) top || startswith (dirname c) (top ++ "/"))
                 then [dirname c] else []) f).

(** One [root] of the in-place directory walk (lines 381-397). *)
Definition inplace_root (root : string) : M (list string) :=
  let cache_dir := join root "__pycache__" in
  f <- get_fs ;;
  concatMapM (fun n =>
      if endswith n ".pyc" then
        let src := join cache_dir n in
        let dest := join root (rsplit2_head n ++ ".pyc") in
        move_file src dest ;;;
        let py_file := join root (rsplit2_head n ++ ".py") in
        g <- get_fs ;;
        (if exists_path py_file g then remove_file py_file else ret tt) ;;;
        ret [dest]
      else ret []) (listdir cache_dir f).

(** One [root] of the directory walk into [output_dir] (lines 429-448). *)
Definition copy_root (target output_dir root : string) : M (list string) :=
  let cache_dir := join root "__pycache__" in
  let rel_root := relpath root target in
  f <- get_fs ;;
  concatMapM (fun n =>
      if endswith n ".pyc" then
        let src := join cache_dir n in
        let simple_name := rsplit2_head n ++ ".pyc" in
        let dest := if String.eqb rel_root "." then join output_dir simple_name
                    else join (join output_dir rel_root) simple_name in
        copyfile src dest ;;; remove_file src ;;; ret [dest]
      else ret []) (listdir cache_dir f).

(** [compile_to_bytecode]; the file system holds files only, so a directory
    is a path with a file below it. *)
Definition compile_to_bytecode (target0 output_dir0 : string) (in_place : bool)
  : M (list string) :=
  let target := abspath target0 in
  let output_dir := abspath output_dir0 in
  f <- get_fs ;;
  if mem target f then
    if negb (endswith target ".py")
    then raise (ValueError "Bytecode target must be a .py file or directory") else
    let base_name := fst (splitext (basename target)) in
    py_compile_file target ;;;
    let cache_dir := join (dirname target) "__pycache__" in
    g <- get_fs ;;
    if isdir cache_dir g then
      match find (fun n => startswith n base_name && endswith n ".pyc")
                 (listdir cache_dir g) with
      | Some n =>
          let src := join cache_dir n in
          if in_place then
            let dest := join (dirname target) (base_name ++ ".pyc") in
            move_file src dest ;;; remove_file target ;;; ret [dest]
          else
            let dest := join output_dir (base_name ++ ".pyc") in
            copyfile src dest ;;; remove_file src ;;; ret [dest]
      | None => ret []
      end
    else ret []
  else if isdir target f then
    ok <- compileall_compile_dir target ;;
    if negb ok then raise (RuntimeError "Bytecode compilation failed") else
    g <- get_fs ;;
    concatMapM (fun root => if in_place then inplace_root root
                            else copy_root target output_dir root)
               (pycache_roots target g)
  else raise (FileNotFoundError target).

(** ** The command line ([cli.get_bytecode_excludes], [cli.main]) *)

(** [get_files_in_dir(top, True, 0, exts)] where [top] is the directory
    [sub] of the source tree: [os.path.join(root, fname)]. *)
Definition walk_files (T : src_tree) (sub top : string)
    (exts : option (list string)) : list string :=
  flat_map (fun e =>
              if match_ext exts (e_name e) then
                match rel_under sub (e_dir e) with
                | Some r => [join (if String.eqb r "" then top else join top r) (e_name e)]
                | None => []
                end
              else []) (st_files T).

(** [os.path.isfile] of the source-relative path [rel] ([.] is the source
    directory itself). *)
Definition isfile_rel (T : src_tree) (rel : string) : bool :=
  negb (String.eqb rel ".") && existsb (fun e => String.eqb (rel_path e) rel) (st_files T).

Definition get_bytecode_excludes (bytecode_target source_dir : string)
    (T : src_tree) : list string :=
  let source_dir_abs := abspath (rstrip_seps source_dir) in
  let bytecode_abs := abspath bytecode_target in
  if negb (String.eqb bytecode_abs source_dir_abs ||
           startswith bytecode_abs (source_dir_abs ++ "/")) then [] else
  let rel := relpath bytecode_abs source_dir_abs in
  if isfile_rel T rel then
    (if negb (endswith bytecode_abs ".py") then [] else [rel])
  else if String.eqb rel "." || isdir_rel T rel then
    map (fun f => relpath f source_dir_abs)
        (walk_files T (if String.eqb rel "." then "" else rel) bytecode_abs
                    (ext_names [".py"]))
  else [].

(** The bytecode step of [main]: where it compiles; [compile_to_bytecode]
    itself is recorded as one event. *)
Definition bytecode_step (source_dir output bytecode_target : string) : M unit :=
  let source_dir_abs := abspath (rstrip_seps source_dir) in
  let bytecode_abs := abspath bytecode_target in
  let target_in_output :=
    if String.eqb bytecode_abs source_dir_abs ||
       startswith bytecode_abs (source_dir_abs ++ "/") then
      let rel := relpath bytecode_abs source_dir_abs in
      if String.eqb rel "." then join output (basename source_dir_abs)
      else join (join output (basename source_dir_abs)) rel
    else "" in
  let target_in_output :=
    if String.eqb target_in_output "" then
      join output (basename (rstrip_seps bytecode_target))
    else target_in_output in
  f <- get_fs ;;
  let p := abspath target_in_output in
  if mem p f || isdir p f
  then emit (EvBytecode target_in_output true)
  else emit (EvBytecode bytecode_target false).

(** [main] for [-d source_dir] (non-empty, without [-f]), [-o output],
    [-m exclude], [-r] and an optional [-b bytecode_target]: the exit
    status. *)
Definition cli_main_dir (ex : string -> bool) (T : src_tree)
    (source_dir output exclude : string) (bytecode_target : option string)
    (release_flag : bool) : M nat :=
  let excl0 :=
    if String.eqb exclude "" then []
    else parse_exclude_files exclude (rstrip_sep source_dir) T in
  let excl :=
    match bytecode_target with
    | Some b => nodup string_dec (excl0 ++ get_bytecode_excludes b source_dir T)
    | None => excl0
    end in
  let opts := mkOptions None (Some (rstrip_sep source_dir)) excl output release_flag in
  r <- catch (o <- compile ex T opts ;; ret (Some o))
             (fun _ => ret None) ;;
  match r, bytecode_target with
  | None, _ => ret 1
  | Some _, Some b => bytecode_step source_dir output b ;;; ret 0
  | Some _, None => ret 0
  end.

End Build.

(** ** Sample source trees *)

(** The directory of the spec's scenario, plus a stale bytecode file and a
    module whose name merely ends in [__init__.py]. *)
Definition pkg_tree : src_tree :=
  mkTree ["sub"; "sub/deep"]
    [mkEntry "" "a.py"; mkEntry "" "__init__.py"; mkEntry "" "data.json";
     mkEntry "" "my__init__.py"; mkEntry "" "old.pyc"; mkEntry "sub" "b.py";
     mkEntry "sub" "notes.txt"; mkEntry "sub/deep" "c.py"].

(** Whether a file lies in directory [d] or below it. *)
Definition under_dir (d : string) (e : entry) : bool :=
  String.eqb (e_dir e) d || startswith (e_dir e) (d ++ "/").

(** The tree after a file has been added. *)
Definition add_file (T : src_tree) (e : entry) : src_tree :=
  mkTree (st_dirs T) (st_files T ++ [e])%list.

(** An exclusion entry that names the source root itself. *)
Definition is_root_entry (root raw : string) : bool :=
  String.eqb (normalize_sep (strip raw)) (normalize_sep root).

Definition pkg_opts (excl : list string) : CompileOptions :=
  mkOptions None (Some "pkg") excl "dist" false.

Definition always_exists (_ : string) : bool := true.

(** A package with one module and its package-init file, compiled from an
    absolute source directory. *)
Definition init_tree : src_tree :=
  mkTree [] [mkEntry "" "a.py"; mkEntry "" "__init__.py"].

Definition abs_opts : CompileOptions :=
  mkOptions None (Some "/src/pkg") [] "dist" false.

Definition abs_start : state :=
  mkState ["/src/pkg/a.py"; "/src/pkg/__init__.py"] [].

(** ** Observations of a run *)

(** The possible results of [list(set(a) - set(b))]: Python seeds its string
    hash per process, so a run may list the difference in any order, without
    duplicates. *)
Definition set_list_order (a b l : list string) : Prop :=
  NoDup l /\ forall x, In x l <-> In x a /\ ~ In x b.

(** The source files resolution starts from (lines 105-114), before the
    exclusions are subtracted. *)
Definition compile_candidates (T : src_tree) : list string :=
  filter (fun f => negb (endswith f "__init__.py"))
         (get_files_in_dir_rel T (ext_names [".py"])).

(** The toolchain invocations of a trace, each by the files it builds. *)
Definition toolchain_calls (tr : list event) : list (list string) :=
  flat_map (fun ev => match ev with EvToolchain l => [l] | _ => [] end) tr.

(** The files the per-file path tries: all of them up to and including the
    first whose toolchain invocation fails. *)
Fixpoint attempted (toolchain : list string -> nat * list string)
    (script_of : string -> list string) (files : list string) : list string :=
  match files with
  | [] => []
  | f :: rest =>
      f :: (if Nat.eqb (fst (toolchain (script_of f))) 0
            then attempted toolchain script_of rest else [])
  end.



(** The files the build stage itself writes: the build script and the
    toolchain's artifacts in the build directory. *)
Definition staging_write (work_dir p : string) : Prop :=
  p = script_path work_dir \/ exists a, p = join (build_dir work_dir) a.

(** Sample toolchains: one that builds every listed module, and one that
    fails, building nothing, when [pkg/sub/b.py] is listed. *)
Definition so_name (f : string) : string :=
  fst (splitext f) ++ ".cpython-312-x86_64-linux-gnu.so".

Definition tc_ok (files : list string) : nat * list string :=
  (0, map so_name files).

Definition tc_fail_b (files : list string) : nat * list string :=
  if mem "pkg/sub/b.py" files then (1, []) else (0, map so_name files).

(** No component of the path is [.] or [..]; with no doubled or trailing
    separator, this is the form [os.path.normpath] leaves a path in, on which
    [abspath] and [relpath] above agree with [os.path]. *)
Definition dot_free (p : string) : bool :=
  forallb (fun c => negb (String.eqb c ".") && negb (String.eqb c "..")) (split_on "/" p).

(** A step of the driver that only appends to the trace and invokes no
    toolchain. *)
Definition no_toolchain {A : Type} (m : M A) : Prop :=
  forall s, exists tr, s_trace (snd (m s)) = (s_trace s ++ tr)%list /\ toolchain_calls tr = [].

(** ** Lemmas on strings and paths *)

Fixpoint last_char (s : string) : option ascii :=
  match s with
  | EmptyString => None
  | String c EmptyString => Some c
  | String _ s' => last_char s'
  end.

Lemma str_app_assoc (a b c : string) : (a ++ b) ++ c = a ++ (b ++ c).
Proof. induction a as [|x a IH]; simpl; [reflexivity | now rewrite IH]. Qed.

Lemma str_app_nil_r (a : string) : a ++ "" = a.
Proof. induction a as [|x a IH]; simpl; [reflexivity | now rewrite IH]. Qed.

Lemma str_app_cancel_l (a b c : string) : a ++ b = a ++ c -> b = c.
Proof. induction a as [|x a IH]; simpl; [auto | intros H; injection H; auto]. Qed.

Lemma str_app_eq_app (a b c d : string) :
  a ++ b = c ++ d ->
  exists m, (c = a ++ m /\ b = m ++ d) \/ (a = c ++ m /\ d = m ++ b).
Proof.
  revert c. induction a as [|x a IH]; intros c H; simpl in H.
  - exists c. left. split; [reflexivity | exact H].
  - destruct c as [|y c]; simpl in H.
    + exists (String x a). right. split; [reflexivity | rewrite <- H; reflexivity].
    + injection H as -> H.
      destruct (IH c H) as [m [[-> ->] | [-> ->]]]; exists m; [left | right];
        split; reflexivity.
Qed.

Lemma endswith_spec (s suf : string) :
  endswith s suf = true <-> exists y, s = y ++ suf.
Proof.
  induction s as [|a s IH]; cbn [endswith].
  - split.
    + intros H. apply orb_true_iff in H as [H|H]; [|discriminate].
      apply String.eqb_eq in H. subst. now exists "".
    + intros [y Hy]. destruct y; simpl in Hy; [subst; reflexivity | discriminate].
  - split.
    + intros H. apply orb_true_iff in H as [H|H].
      * apply String.eqb_eq in H. subst. now exists "".
      * apply IH in H as [y ->]. now exists (String a y).
    + intros [y Hy]. apply orb_true_iff. destruct y as [|b y]; simpl in Hy.
      * left. subst. apply String.eqb_refl.
      * right. injection Hy as -> Hy. apply IH. now exists y.
Qed.

Lemma endswith_app (y suf : string) : endswith (y ++ suf) suf = true.
Proof. apply endswith_spec. now exists y. Qed.

Lemma last_char_cons (x : ascii) (s : string) :
  s <> "" -> last_char (String x s) = last_char s.
Proof. destruct s; [congruence | reflexivity]. Qed.

Lemma last_char_app (a b : string) :
  b <> "" -> last_char (a ++ b) = last_char b.
Proof.
  intros Hb. induction a as [|x a IH]; [reflexivity|].
  change (String x a ++ b) with (String x (a ++ b)).
  rewrite last_char_cons; [exact IH|].
  destruct a, b; simpl; congruence.
Qed.

Lemma has_char_app (c : ascii) (a b : string) :
  has_char c (a ++ b) = has_char c a || has_char c b.
Proof. induction a as [|x a IH]; simpl; [reflexivity | now rewrite IH, orb_assoc]. Qed.

Lemma has_char_last (c : ascii) (s : string) :
  last_char s = Some c -> has_char c s = true.
Proof.
  induction s as [|x s IH]; simpl; [discriminate|].
  destruct s as [|y s'].
  - intros H. injection H as ->. now rewrite Ascii.eqb_refl.
  - intros H. apply orb_true_iff. right. exact (IH H).
Qed.

(** [join a b] appends [b] to a prefix that is empty or ends in a separator. *)
Lemma join_prefix (a b : string) :
  exists pre, join a b = pre ++ b /\ (pre = "" \/ endswith pre "/" = true).
Proof.
  unfold join.
  destruct (startswith b "/"); [exists ""; auto|].
  destruct (String.eqb a ""); [exists ""; auto|].
  destruct (endswith a "/") eqn:E; [exists a; auto|].
  exists (a ++ "/"). split.
  - now rewrite str_app_assoc.
  - right. apply endswith_app.
Qed.

Lemma endswith_join (a b s : string) :
  endswith b s = true -> endswith (join a b) s = true.
Proof.
  intros H. destruct (join_prefix a b) as [pre [-> _]].
  apply endswith_spec in H as [y ->]. rewrite <- str_app_assoc. apply endswith_app.
Qed.

(** A separator-free suffix of [join a b] is a suffix of [b]. *)
Lemma endswith_join_inv (a b s : string) :
  has_char "/" s = false -> endswith (join a b) s = true -> endswith b s = true.
Proof.
  intros Hs H. destruct (join_prefix a b) as [pre [Hj Hpre]]. rewrite Hj in H.
  apply endswith_spec in H as [y Hy].
  destruct (str_app_eq_app _ _ _ _ Hy) as [m [[_ Hb] | [Hp Hsm]]].
  - apply endswith_spec. now exists m.
  - destruct m as [|x m].
    + simpl in Hsm. subst. apply endswith_spec. now exists "".
    + exfalso. destruct Hpre as [-> | Hpre].
      * destruct y; discriminate.
      * apply endswith_spec in Hpre as [z Hz]. rewrite Hz in Hp.
        assert (Hl : last_char (String x m) = Some "/"%char).
        { rewrite <- (last_char_app y) by discriminate. rewrite <- Hp.
          rewrite last_char_app by discriminate. reflexivity. }
        apply has_char_last in Hl. rewrite Hsm, has_char_app, Hl in Hs.
        discriminate.
Qed.

(** [join a] is injective on relative paths. *)
Lemma join_inj (a b b' : string) :
  startswith b "/" = false -> startswith b' "/" = false ->
  join a b = join a b' -> b = b'.
Proof.
  unfold join. intros -> ->.
  destruct (String.eqb a ""); [auto|].
  destruct (endswith a "/"); [apply str_app_cancel_l|].
  intros H. apply str_app_cancel_l in H. now injection H.
Qed.

Lemma substring_suffix (s : string) (k : nat) :
  exists x, s = x ++ substring k (String.length s - k) s.
Proof.
  revert k. induction s as [|a s IH]; intros k.
  - exists "". destruct k; reflexivity.
  - destruct k as [|k].
    + exists "". simpl. f_equal.
      clear IH. induction s as [|b s IHs]; simpl; [reflexivity | now rewrite <- IHs].
    + destruct (IH k) as [x Hx]. exists (String a x). simpl. now rewrite <- Hx.
Qed.

(** The extension [match_ext] tests is a suffix of the name. *)
Lemma ext_of_suffix (fname : string) : exists x, fname = x ++ ext_of fname.
Proof.
  unfold ext_of. destruct (startswith fname "."); [now exists ""|].
  unfold splitext.
  destruct (rfind "." fname) as [di|]; [|exists fname; simpl; now rewrite str_app_nil_r].
  destruct (_ <=? di)%nat; [|exists fname; simpl; now rewrite str_app_nil_r].
  destruct (negb _); [apply substring_suffix|].
  exists fname; simpl; now rewrite str_app_nil_r.
Qed.

Lemma lower_empty (s : string) : lower s = "" -> s = "".
Proof. destruct s; simpl; [auto | discriminate]. Qed.

(** A name with extension [.py] (any case) ends in [y] or [Y]. *)
Lemma py_name_last (n : string) :
  match_ext (ext_names [".py"]) n = true ->
  exists c, last_char n = Some c /\ lower_ascii c = "y"%char.
Proof.
  intros H. simpl in H. rewrite orb_false_r in H. apply String.eqb_eq in H.
  destruct (ext_of_suffix n) as [x Hx].
  destruct (ext_of n) as [|c1 [|c2 [|c3 r]]] eqn:E; simpl in H; try discriminate.
  injection H as _ _ H3 Hr. apply lower_empty in Hr. subst r.
  exists c3. split; [|exact H3].
  rewrite Hx. rewrite last_char_app by discriminate. reflexivity.
Qed.

Lemma pyc_last (s : string) : endswith s ".pyc" = true -> last_char s = Some "c"%char.
Proof.
  intros H. apply endswith_spec in H as [y ->].
  rewrite last_char_app by discriminate. reflexivity.
Qed.

(** A source file is never a bytecode file. *)
Lemma py_not_pyc (e : entry) :
  match_ext (ext_names [".py"]) (e_name e) = true ->
  endswith (rel_path e) ".pyc" = false.
Proof.
  intros H. destruct (py_name_last _ H) as [c [Hc Hy]].
  destruct (endswith (rel_path e) ".pyc") eqn:E; [|reflexivity].
  apply pyc_last in E. unfold rel_path in E.
  destruct (join_prefix (e_dir e) (e_name e)) as [pre [Hj _]].
  rewrite Hj, last_char_app in E.
  - rewrite Hc in E. injection E as ->. discriminate.
  - intros Hn. rewrite Hn in Hc. discriminate.
Qed.

(** ** Lemmas on the set operations *)

Lemma mem_In (x : string) (l : list string) : mem x l = true <-> In x l.
Proof.
  unfold mem. rewrite existsb_exists. split.
  - intros [y [Hy Hxy]]. apply String.eqb_eq in Hxy. now subst.
  - intros H. exists x. split; [exact H | apply String.eqb_refl].
Qed.

Lemma In_py_set_diff (x : string) (a b : list string) :
  In x (py_set_diff a b) <-> In x a /\ ~ In x b.
Proof.
  unfold py_set_diff. rewrite nodup_In, filter_In, negb_true_iff.
  split.
  - intros [Ha Hb]. split; [exact Ha|]. intros Hin. apply mem_In in Hin. congruence.
  - intros [Ha Hb]. split; [exact Ha|]. destruct (mem x b) eqn:E; [|reflexivity].
    apply mem_In in E. contradiction.
Qed.

Lemma In_compile_rel (T : src_tree) (excl : list string) (r : string) :
  In r (compile_rel T excl) <->
  (exists e, In e (st_files T) /\ match_ext (ext_names [".py"]) (e_name e) = true /\
             r = rel_path e) /\
  endswith r "__init__.py" = false /\ ~ In r excl.
Proof.
  unfold compile_rel, get_files_in_dir_rel.
  rewrite In_py_set_diff, filter_In, in_map_iff, negb_true_iff.
  split.
  - intros [[[e [He1 He2]] Hi] Hx]. apply filter_In in He2 as [He2 Hm].
    split; [exists e; auto | auto].
  - intros [[e [He [Hm ->]]] [Hi Hx]]. repeat split; auto.
    exists e. split; [reflexivity|]. apply filter_In. auto.
Qed.

Lemma In_non_bytecode (sd : string) (T : src_tree) (p : string) :
  In p (non_bytecode_files sd T) <->
  exists e, In e (st_files T) /\ endswith (rel_path e) ".pyc" = false /\
            p = join sd (rel_path e).
Proof.
  unfold non_bytecode_files, get_files_in_dir_rel. rewrite in_map_iff. split.
  - intros [r [<- Hr]]. apply filter_In in Hr as [Hr Hp].
    apply in_map_iff in Hr as [e [<- He]]. apply filter_In in He as [He _].
    exists e. apply negb_true_iff in Hp. auto.
  - intros [e [He [Hp ->]]]. exists (rel_path e). split; [reflexivity|].
    apply filter_In. split; [|now rewrite Hp].
    apply in_map. apply filter_In. auto.
Qed.

Lemma get_compile_files_dir (ex : string -> bool) (T : src_tree)
    (opts : CompileOptions) (sd : string) (C : list string) :
  py_opt (source_dir opts) = Some sd -> py_opt (source_file opts) = None ->
  get_compile_files ex T opts = Ok C ->
  C = map (join sd) (compile_rel T (exclude_files opts)).
Proof.
  unfold get_compile_files. intros -> ->.
  destruct (ex sd); intros H; [injection H; auto | discriminate].
Qed.

(** The files selected for native compilation are non-bytecode files whose
    names do not end in [__init__.py]. *)
Lemma compile_file_class (T : src_tree) (sd : string) (excl : list string)
    (q : string) :
  In q (map (join sd) (compile_rel T excl)) ->
  In q (non_bytecode_files sd T) /\ endswith q "__init__.py" = false.
Proof.
  intros Hq. apply in_map_iff in Hq as [r [<- Hr]].
  apply In_compile_rel in Hr as [[e [He [Hm ->]]] [Hi _]]. split.
  - apply In_non_bytecode. exists e. split; [exact He|]. split; [|reflexivity].
    now apply py_not_pyc.
  - destruct (endswith (join sd (rel_path e)) "__init__.py") eqn:E; [|reflexivity].
    apply endswith_join_inv in E; [congruence | reflexivity].
Qed.

Lemma init_not_pyc (s : string) :
  endswith s "__init__.py" = true -> endswith s ".pyc" = false.
Proof.
  intros H. destruct (endswith s ".pyc") eqn:E; [|reflexivity].
  apply pyc_last in E. apply endswith_spec in H as [y ->].
  rewrite last_char_app in E by discriminate. discriminate.
Qed.


(** ** More path lemmas *)

Lemma startswith_cons (c : ascii) (s : string) :
  startswith (String c s) "/" = Ascii.eqb c "/".
Proof.
  unfold startswith. destruct s; cbn [String.prefix];
    destruct (ascii_dec "/" c), (Ascii.eqb_spec c "/"); congruence.
Qed.

Lemma startswith_app_l (a b : string) :
  a <> "" -> startswith (a ++ b) "/" = startswith a "/".
Proof.
  intros Ha. destruct a as [|c a]; [congruence|].
  change (String c a ++ b) with (String c (a ++ b)). now rewrite !startswith_cons.
Qed.

Lemma prefix_drop (p s : string) :
  startswith s p = true -> s = p ++ drop (String.length p) s.
Proof.
  unfold startswith. revert s. induction p as [|c p IH]; intros s H; [reflexivity|].
  destruct s as [|c' s]; cbn [String.prefix] in H; [discriminate|].
  destruct (ascii_dec c c') as [<-|]; [|discriminate].
  simpl. f_equal. now apply IH.
Qed.

Lemma prefix_self_sep (s : string) : startswith s (s ++ "/") = false.
Proof.
  unfold startswith. induction s as [|c s IH]; [reflexivity|].
  cbn [String.prefix append]. destruct (ascii_dec c c); [exact IH | congruence].
Qed.

Lemma no_double_slash_app (a b : string) :
  no_double_slash (a ++ b) = true -> no_double_slash b = true.
Proof.
  induction a as [|c a IH]; [auto|].
  simpl. intros H. apply andb_true_iff in H as [_ H]. auto.
Qed.

Lemma string_rev_app (a b : string) :
  string_rev (a ++ b) = string_rev b ++ string_rev a.
Proof.
  induction a as [|c a IH]; simpl.
  - now rewrite str_app_nil_r.
  - now rewrite IH, str_app_assoc.
Qed.

Lemma string_rev_involutive (s : string) : string_rev (string_rev s) = s.
Proof.
  induction s as [|c s IH]; [reflexivity|].
  simpl. rewrite string_rev_app. simpl. now rewrite IH.
Qed.

Lemma rstrip_sep_slash (d : string) :
  endswith d "/" = false -> rstrip_sep (d ++ "/") = d.
Proof.
  intros Hd. unfold rstrip_sep. rewrite string_rev_app.
  change (string_rev "/") with "/". cbn [append lstrip_by].
  rewrite Ascii.eqb_refl.
  destruct (string_rev d) as [|c r] eqn:E.
  - rewrite <- (string_rev_involutive d), E. reflexivity.
  - cbn [lstrip_by]. destruct (Ascii.eqb_spec "/" c) as [<-|Hc].
    + exfalso. rewrite <- (string_rev_involutive d), E in Hd. simpl in Hd.
      rewrite endswith_app in Hd. discriminate.
    + rewrite <- E. apply string_rev_involutive.
Qed.

Lemma split_on_no_char (c : ascii) (s : string) :
  has_char c s = false -> split_on c s = [s].
Proof.
  induction s as [|a s IH]; [reflexivity|].
  simpl. intros H. apply orb_false_iff in H as [H1 H2]. rewrite H1, (IH H2).
  reflexivity.
Qed.

Lemma join_empty_l (n : string) : join "" n = n.
Proof. unfold join. destruct (startswith n "/"); reflexivity. Qed.

Lemma wf_entry_name (e : entry) :
  wf_entry e = true ->
  e_name e <> "" /\ has_char "/" (e_name e) = false /\
  startswith (e_dir e) "/" = false /\ endswith (e_dir e) "/" = false /\
  no_double_slash (e_dir e) = true.
Proof.
  unfold wf_entry. intros H. repeat rewrite andb_true_iff in H.
  destruct H as [[[[H1 H2] H3] H4] H5]. apply negb_true_iff in H1, H2, H3, H4.
  repeat split; auto. intros Hn. rewrite Hn in H1. discriminate.
Qed.

Lemma name_relative (n : string) :
  n <> "" -> has_char "/" n = false -> startswith n "/" = false.
Proof.
  intros H1 H2. destruct n as [|c n]; [congruence|].
  rewrite startswith_cons. simpl in H2. apply orb_false_iff in H2. tauto.
Qed.

Lemma rel_path_relative (e : entry) :
  wf_entry e = true -> startswith (rel_path e) "/" = false.
Proof.
  intros H. destruct (wf_entry_name e H) as [Hn [Hs [Hd1 [Hd2 _]]]].
  pose proof (name_relative _ Hn Hs) as Hr.
  unfold rel_path, join. rewrite Hr, Hd2.
  destruct (String.eqb_spec (e_dir e) "") as [_|Hne]; [exact Hr|].
  now rewrite startswith_app_l.
Qed.

Lemma wf_tree_In (T : src_tree) (e : entry) :
  wf_tree T = true -> In e (st_files T) -> wf_entry e = true.
Proof. unfold wf_tree. rewrite forallb_forall. auto. Qed.


Lemma str_length_app (a b : string) :
  String.length (a ++ b) = String.length a + String.length b.
Proof. induction a as [|c a IH]; simpl; [reflexivity | now rewrite IH]. Qed.

(** The walk of [join(root_dir, d)] relativised and re-joined to [d] gives
    back the file's path relative to the source directory. *)
Lemma rel_under_join (d : string) (e : entry) (r : string) :
  wf_entry e = true -> d <> "" -> endswith d "/" = false ->
  rel_under d (e_dir e) = Some r -> join d (join r (e_name e)) = rel_path e.
Proof.
  intros Hwf Hd Hdend. destruct (wf_entry_name e Hwf) as [Hn [Hns [Hd1 [Hd2 Hd3]]]].
  pose proof (name_relative _ Hn Hns) as Hnr.
  unfold rel_under. destruct (String.eqb_spec d "") as [|_]; [congruence|].
  unfold rel_path. destruct (e_dir e) as [|c0 dir0] eqn:Edir.
  - destruct d; [congruence|].
    destruct (String.eqb_spec "" (String a d)) as [|_]; [discriminate|].
    unfold startswith. cbn [String.prefix]. discriminate.
  - set (dir := String c0 dir0) in *.
    destruct (String.eqb_spec dir d) as [Heq|_].
    + intros H. injection H as <-. rewrite join_empty_l. now rewrite Heq.
    + destruct (startswith dir (d ++ "/")) eqn:Hpre; [|discriminate].
      intros H. injection H as <-.
      apply prefix_drop in Hpre. rewrite str_length_app in Hpre. simpl in Hpre.
      set (rest := drop (String.length d + 1) dir) in *. clearbody rest.
      rewrite str_app_assoc in Hpre. simpl in Hpre.
      assert (Hr1 : rest <> "").
      { intros ->. rewrite Hpre in Hd2. change (d ++ "/") with (d ++ "/") in Hd2.
        rewrite endswith_app in Hd2. discriminate. }
      assert (Hr2 : endswith rest "/" = false).
      { destruct (endswith rest "/") eqn:E; [|reflexivity].
        apply endswith_spec in E as [y ->]. rewrite Hpre in Hd2.
        change (String "/" (y ++ "/")) with (("/" ++ y) ++ "/") in Hd2.
        rewrite <- str_app_assoc, endswith_app in Hd2. discriminate. }
      assert (Hr3 : startswith rest "/" = false).
      { rewrite Hpre in Hd3. apply no_double_slash_app in Hd3.
        cbn [no_double_slash] in Hd3. rewrite Ascii.eqb_refl in Hd3.
        destruct (startswith rest "/"); [discriminate | reflexivity]. }
      assert (Hj : join rest (e_name e) = rest ++ "/" ++ e_name e).
      { unfold join. rewrite Hnr, Hr2. destruct (String.eqb_spec rest "");
          [congruence | reflexivity]. }
      rewrite Hj. unfold join at 1.
      rewrite startswith_app_l by exact Hr1. rewrite Hr3, Hdend.
      destruct (String.eqb_spec d "") as [|_]; [congruence|].
      unfold join. rewrite Hnr, Hd2. fold dir.
      destruct (String.eqb_spec dir "") as [Hdir|_]; [unfold dir in Hdir; discriminate|].
      rewrite Hpre. rewrite !str_app_assoc. reflexivity.
Qed.

Lemma under_dir_rel_under (d : string) (e : entry) :
  d <> "" -> under_dir d e = true <-> exists r, rel_under d (e_dir e) = Some r.
Proof.
  intros Hd. unfold under_dir, rel_under.
  destruct (String.eqb_spec d "") as [|_]; [congruence|].
  destruct (String.eqb (e_dir e) d); simpl.
  - split; [eauto | reflexivity].
  - destruct (startswith (e_dir e) (d ++ "/")); split; eauto;
      [intros H; discriminate | intros [r H]; discriminate].
Qed.

(** A directory entry expands to exactly the files below the directory. *)
Lemma expand_dir (T : src_tree) (d x : string) :
  wf_tree T = true -> d <> "" -> endswith d "/" = false ->
  In x (map (join d) (files_under T d)) <->
  exists e, In e (st_files T) /\ under_dir d e = true /\ x = rel_path e.
Proof.
  intros Hwf Hd Hdend. unfold files_under. rewrite in_map_iff. split.
  - intros [y [<- Hy]]. apply in_flat_map in Hy as [e [He Hy]].
    destruct (rel_under d (e_dir e)) as [r|] eqn:Er; [|contradiction].
    destruct Hy as [<-|[]]. exists e. split; [exact He|]. split.
    + apply under_dir_rel_under; eauto.
    + apply rel_under_join; auto. now apply (wf_tree_In T).
  - intros [e [He [Hu ->]]]. apply (under_dir_rel_under d e Hd) in Hu as [r Hr].
    exists (join r (e_name e)). split.
    + apply rel_under_join; auto. now apply (wf_tree_In T).
    + apply in_flat_map. exists e. rewrite Hr. split; [exact He | now left].
Qed.

Lemma flat_map_skip {A B : Type} (f : A -> list B) (P : A -> bool) (l : list A) :
  (forall x, P x = true -> f x = []) ->
  flat_map f l = flat_map f (filter (fun x => negb (P x)) l).
Proof.
  intros H. induction l as [|a l IH]; [reflexivity|].
  simpl. destruct (P a) eqn:E; simpl.
  - now rewrite (H a E), IH.
  - now rewrite IH.
Qed.

Lemma root_entry_nothing (root raw : string) (T : src_tree) :
  is_root_entry root raw = true -> exclude_entry root T raw = [].
Proof.
  unfold is_root_entry, exclude_entry. intros H. apply String.eqb_eq in H.
  cbv zeta. destruct (String.eqb (strip raw) ""); [reflexivity|].
  rewrite H, prefix_self_sep, String.eqb_refl. reflexivity.
Qed.

(** ** Lemmas on the build driver *)

Lemma bind_ok {A B : Type} (m : M A) (k : A -> M B) (s s' : state) (a : A) :
  m s = (Ok a, s') -> bind m k s = k a s'.
Proof. intros H. unfold bind. rewrite H. reflexivity. Qed.

Lemma bind_err {A B : Type} (m : M A) (k : A -> M B) (s s' : state) (e : error) :
  m s = (Err e, s') -> bind m k s = (Err e, s').
Proof. intros H. unfold bind. rewrite H. reflexivity. Qed.

Section Confined.

Variables (W R : string -> Prop).










End Confined.


Lemma toolchain_calls_app (a b : list event) :
  toolchain_calls (a ++ b) = (toolchain_calls a ++ toolchain_calls b)%list.
Proof. unfold toolchain_calls. apply flat_map_app. Qed.

Lemma toolchain_calls_writes (g : string -> string) (l : list string) :
  toolchain_calls (map (fun a => EvWrite (g a)) l) = [].
Proof. induction l as [| a l IH]; [reflexivity | exact IH]. Qed.

Lemma writes_spec (g : string -> string) (l : list string) (s : state) :
  fst (mapM_ (fun a => write_file (g a)) l s) = Ok tt /\
  s_trace (snd (mapM_ (fun a => write_file (g a)) l s)) =
    (s_trace s ++ map (fun a => EvWrite (g a)) l)%list /\
  (forall p, In p (s_fs s) -> In p (s_fs (snd (mapM_ (fun a => write_file (g a)) l s)))) /\
  (forall a, In a l -> In (g a) (s_fs (snd (mapM_ (fun a => write_file (g a)) l s)))).
Proof.
  revert s. induction l as [| a l IH]; intros s.
  - cbn. rewrite app_nil_r. split; [reflexivity | split; [reflexivity | split; [auto | intros a []]]].
  - cbn [mapM_]. set (s1 := mkState (if mem (g a) (s_fs s) then s_fs s else (s_fs s ++ [g a])%list)
                                   (s_trace s ++ [EvWrite (g a)])%list).
    rewrite (bind_ok _ _ s s1 tt) by reflexivity.
    destruct (IH s1) as [Hok [Htr [Hsub Hin]]].
    split; [exact Hok |]. split; [| split].
    + rewrite Htr. cbn. rewrite <- app_assoc. reflexivity.
    + intros p Hp. apply Hsub. cbn. destruct (mem (g a) (s_fs s)); [exact Hp |].
      apply in_or_app. left. exact Hp.
    + intros b [Heq | Hb]; [subst b | apply Hin, Hb].
      apply Hsub. cbn. destruct (mem (g a) (s_fs s)) eqn:E.
      * apply mem_In, E.
      * apply in_or_app. right. left. reflexivity.
Qed.

Lemma rmtree_spec (d : string) (s : state) :
  fst (rmtree d s) = Ok tt /\
  (forall p, In p (s_fs (snd (rmtree d s))) -> In p (s_fs s)) /\
  (forall p, In p (s_fs (snd (rmtree d s))) -> startswith p (d ++ "/") = false).
Proof.
  unfold rmtree. destruct (isdir d (s_fs s)) eqn:E; cbn [fst snd s_fs].
  - split; [reflexivity | split].
    + intros p Hp. apply filter_In in Hp. tauto.
    + intros p Hp. apply filter_In in Hp as [_ Hp].
      destruct (startswith p (d ++ "/")); [discriminate | reflexivity].
  - split; [reflexivity | split; [auto |]].
    intros p Hp. destruct (startswith p (d ++ "/")) eqn:E2; [| reflexivity].
    exfalso. unfold isdir in E.
    assert (H : existsb (fun q => startswith q (d ++ "/")) (s_fs s) = true)
      by (apply existsb_exists; exists p; auto).
    congruence.
Qed.

Section Phases.

Variables (is_windows : bool) (toolchain : list string -> nat * list string)
  (py_ok : string -> bool) (cache_tag work_dir : string).









Lemma rmtrees_spec (L : list string) (s : state) :
  exists s1,
    mapM_ (fun folder => rmtree (join work_dir folder)) L s = (Ok tt, s1) /\
    (exists tr, s_trace s1 = (s_trace s ++ tr)%list /\ toolchain_calls tr = [] /\
                forall p, ~ In (EvWrite p) tr) /\
    (forall p, In p (s_fs s1) -> In p (s_fs s)) /\
    (forall folder p, In folder L -> In p (s_fs s1) ->
                      startswith p (join work_dir folder ++ "/") = false).
Proof.
  revert s. induction L as [| d L IH]; intros s.
  - exists s. split; [reflexivity |]. split; [exists []; rewrite app_nil_r; split; [reflexivity | split; [reflexivity | intros p []]] |].
    split; [auto | intros _ _ []].
  - destruct (rmtree_spec (join work_dir d) s) as [Hok [Hsub0 Hout0]].
    assert (Htr0 : exists tr, s_trace (snd (rmtree (join work_dir d) s)) = (s_trace s ++ tr)%list /\
                              toolchain_calls tr = [] /\ forall p, ~ In (EvWrite p) tr).
    { unfold rmtree. destruct (isdir _ _); cbn [snd s_trace].
      - exists [EvRemoveTree (join work_dir d)]. split; [reflexivity | split; [reflexivity |]].
        intros p [H | []]. discriminate.
      - exists []. rewrite app_nil_r. split; [reflexivity | split; [reflexivity | intros p []]]. }
    destruct (rmtree (join work_dir d) s) as [r s0] eqn:E. cbn [fst snd] in Hok, Hsub0, Hout0, Htr0.
    subst r. destruct Htr0 as [tr0 [Ht0 [Hc0 Hw0]]].
    destruct (IH s0) as [s1 [H1 [[tr1 [Ht1 [Hc1 Hw1]]] [Hsub Hout]]]].
    exists s1. cbn [mapM_]. rewrite (bind_ok _ _ _ _ _ E). split; [exact H1 |].
    split; [| split].
    + exists (tr0 ++ tr1)%list. rewrite Ht1, Ht0, app_assoc. split; [reflexivity |].
      rewrite toolchain_calls_app, Hc0, Hc1. split; [reflexivity |].
      intros p Hp. apply in_app_or in Hp as [Hp | Hp]; [exact (Hw0 p Hp) | exact (Hw1 p Hp)].
    + intros p Hp. apply Hsub0, Hsub, Hp.
    + intros folder p [<- | Hf] Hp; [apply Hout0, Hsub, Hp | exact (Hout folder p Hf Hp)].
Qed.

Lemma clear_spec (opts : CompileOptions) (s : state) :
  exists s1,
    clear_build_folders work_dir opts s = (Ok tt, s1) /\
    (exists tr, s_trace s1 = (s_trace s ++ tr)%list /\ toolchain_calls tr = [] /\
                forall p, ~ In (EvWrite p) tr) /\
    (forall p, In p (s_fs s1) -> In p (s_fs s)) /\
    (forall p, In p (s_fs s1) -> startswith p (join work_dir (output_dir opts) ++ "/") = false).
Proof.
  destruct (rmtrees_spec [".py2dist/build"; ".py2dist/build_c"; ".py2dist/build_tmp"; output_dir opts] s)
    as [s1 [H1 [Htr [Hsub Hout]]]].
  exists s1. split; [exact H1 |]. split; [exact Htr |]. split; [exact Hsub |].
  intros p Hp. apply (Hout (output_dir opts)); [right; right; right; left; reflexivity | exact Hp].
Qed.

Lemma run_spec (files : list string) (s : state) :
  exists tr,
    s_trace (snd (run_cython_build toolchain work_dir files s)) =
      (s_trace s ++ EvToolchain files :: tr)%list /\
    toolchain_calls tr = [] /\
    (forall p, In (EvWrite p) tr -> staging_write work_dir p) /\
    fst (run_cython_build toolchain work_dir files s) =
      (if Nat.eqb (fst (toolchain files)) 0 then Ok tt
       else Err (RuntimeError "Cython build failed")) /\
    (forall p, In p (s_fs s) -> In p (s_fs (snd (run_cython_build toolchain work_dir files s)))) /\
    (forall a, In a (snd (toolchain files)) ->
               In (join (build_dir work_dir) a) (s_fs (snd (run_cython_build toolchain work_dir files s)))).
Proof.
  unfold run_cython_build. destruct (toolchain files) as [code arts] eqn:Etc. cbn [fst snd].
  set (s0 := mkState (s_fs s) (s_trace s ++ [EvToolchain files])%list).
  rewrite (bind_ok (emit (EvToolchain files)) _ s s0 tt) by reflexivity.
  destruct (writes_spec (join (build_dir work_dir)) arts s0) as [Hok [Htr [Hsub Hin]]].
  destruct (mapM_ (fun a => write_file (join (build_dir work_dir) a)) arts s0) as [r2 s2] eqn:E2.
  cbn [fst snd] in Hok, Htr, Hsub, Hin. subst r2.
  rewrite (bind_ok _ _ _ _ _ E2).
  exists (map (fun a => EvWrite (join (build_dir work_dir) a)) arts).
  assert (Hfin : snd ((if Nat.eqb code 0 then ret tt else raise (RuntimeError "Cython build failed")) s2) = s2)
    by (destruct (Nat.eqb code 0); reflexivity).
  rewrite Hfin. split; [| split; [| split; [| split; [| split]]]].
  - rewrite Htr. cbn. rewrite <- app_assoc. reflexivity.
  - apply toolchain_calls_writes.
  - intros p Hp. apply in_map_iff in Hp as [a [Ha _]]. injection Ha as <-. right. exists a. reflexivity.
  - destruct (Nat.eqb code 0); reflexivity.
  - intros p Hp. apply Hsub. exact Hp.
  - exact Hin.
Qed.

Lemma generate_spec (opts : CompileOptions) (files : list string) (s : state) :
  generate_build_script work_dir opts files s =
  (Ok (build_rel_files work_dir opts files),
   mkState (if mem (script_path work_dir) (s_fs s) then s_fs s
            else (s_fs s ++ [script_path work_dir])%list)
           (s_trace s ++ [EvWrite (script_path work_dir)])%list).
Proof. reflexivity. Qed.

Lemma generate_grows (opts : CompileOptions) (files : list string) (s : state) (p : string) :
  In p (s_fs s) -> In p (s_fs (snd (generate_build_script work_dir opts files s))).
Proof.
  intros Hp. rewrite generate_spec. cbn [snd s_fs].
  destruct (mem _ _); [exact Hp | apply in_or_app; left; exact Hp].
Qed.

(** The per-file path: the files are tried in list order up to the first
    failure, every file tried leaves its artifacts, and nothing is removed. *)
Lemma build_each_spec (opts : CompileOptions) (files : list string) (s : state) :
  let script_of := fun f => build_rel_files work_dir opts [f] in
  exists tr,
    s_trace (snd (build_each toolchain work_dir opts files s)) = (s_trace s ++ tr)%list /\
    toolchain_calls tr = map script_of (attempted toolchain script_of files) /\
    (forall p, In (EvWrite p) tr -> staging_write work_dir p) /\
    fst (build_each toolchain work_dir opts files s) =
      (if existsb (fun f => negb (Nat.eqb (fst (toolchain (script_of f))) 0)) files
       then Err (RuntimeError "Cython build failed") else Ok tt) /\
    (forall p, In p (s_fs s) -> In p (s_fs (snd (build_each toolchain work_dir opts files s)))) /\
    (forall f a, In f (attempted toolchain script_of files) ->
                 In a (snd (toolchain (script_of f))) ->
                 In (join (build_dir work_dir) a) (s_fs (snd (build_each toolchain work_dir opts files s)))).
Proof.
  intros script_of. unfold build_each. revert s.
  induction files as [| f files IH]; intros s.
  - exists []. cbn. rewrite app_nil_r.
    split; [reflexivity | split; [reflexivity | split; [intros p [] | split; [reflexivity | split; [auto | intros f a []]]]]].
  - cbn [mapM_].
    set (sg := snd (generate_build_script work_dir opts [f] s)).
    assert (Eg : generate_build_script work_dir opts [f] s = (Ok (script_of f), sg))
      by (rewrite generate_spec; reflexivity).
    assert (Hsg : s_trace sg = (s_trace s ++ [EvWrite (script_path work_dir)])%list)
      by (unfold sg; rewrite generate_spec; reflexivity).
    assert (Hgrow : forall p, In p (s_fs s) -> In p (s_fs sg)) by (intros p; apply generate_grows).
    destruct (run_spec (script_of f) sg) as [tr1 [Ht1 [Hc1 [Hw1 [Hr1 [Hs1 Ha1]]]]]].
    destruct (run_cython_build toolchain work_dir (script_of f) sg) as [r1 s1] eqn:Er.
    cbn [fst snd] in Ht1, Hr1, Hs1, Ha1.
    assert (Eb : (script <- generate_build_script work_dir opts [f] ;;
                  run_cython_build toolchain work_dir script) s = (r1, s1))
      by (rewrite (bind_ok _ _ _ _ _ Eg); exact Er).
    destruct (Nat.eqb (fst (toolchain (script_of f))) 0) eqn:Ec.
    + subst r1. rewrite (bind_ok _ _ _ _ _ Eb).
      destruct (IH s1) as [tr2 [Ht2 [Hc2 [Hw2 [Hr2 [Hs2 Ha2]]]]]].
      exists (EvWrite (script_path work_dir) :: EvToolchain (script_of f) :: tr1 ++ tr2)%list.
      split; [| split; [| split; [| split; [| split]]]].
      * rewrite Ht2, Ht1, Hsg. repeat rewrite <- app_assoc. reflexivity.
      * cbn [attempted map]. rewrite Ec.
        change (EvWrite (script_path work_dir) :: EvToolchain (script_of f) :: tr1 ++ tr2)%list
          with ([EvWrite (script_path work_dir); EvToolchain (script_of f)] ++ (tr1 ++ tr2))%list.
        rewrite !toolchain_calls_app, Hc1, Hc2. reflexivity.
      * intros p [Hp | [Hp | Hp]]; [injection Hp as <-; left; reflexivity | discriminate |].
        apply in_app_or in Hp as [Hp | Hp]; [apply Hw1, Hp | apply Hw2, Hp].
      * cbn [existsb]. rewrite Ec. cbn [negb orb]. exact Hr2.
      * intros p Hp. apply Hs2, Hs1, Hgrow, Hp.
      * cbn [attempted]. rewrite Ec. intros g a [<- | Hg] Ha; [apply Hs2, Ha1, Ha | exact (Ha2 g a Hg Ha)].
    + subst r1. rewrite (bind_err _ _ _ _ _ Eb).
      exists (EvWrite (script_path work_dir) :: EvToolchain (script_of f) :: tr1)%list.
      split; [| split; [| split; [| split; [| split]]]].
      * cbn [snd]. rewrite Ht1, Hsg. repeat rewrite <- app_assoc. reflexivity.
      * cbn [attempted map]. rewrite Ec.
        change (EvWrite (script_path work_dir) :: EvToolchain (script_of f) :: tr1)%list
          with ([EvWrite (script_path work_dir); EvToolchain (script_of f)] ++ tr1)%list.
        rewrite toolchain_calls_app, Hc1. reflexivity.
      * intros p [Hp | [Hp | Hp]]; [injection Hp as <-; left; reflexivity | discriminate | apply Hw1, Hp].
      * cbn [existsb fst]. rewrite Ec. reflexivity.
      * intros p Hp. apply Hs1, Hgrow, Hp.
      * cbn [attempted]. rewrite Ec. intros g a [<- | []] Ha. apply Ha1, Ha.
Qed.

(** The batched path: one script, one toolchain invocation. *)
Lemma build_batched_spec (opts : CompileOptions) (files : list string) (s : state) :
  let m := (script <- generate_build_script work_dir opts files ;;
            run_cython_build toolchain work_dir script) in
  exists tr,
    s_trace (snd (m s)) = (s_trace s ++ tr)%list /\
    toolchain_calls tr = [build_rel_files work_dir opts files] /\
    (forall p, In (EvWrite p) tr -> staging_write work_dir p) /\
    fst (m s) = (if Nat.eqb (fst (toolchain (build_rel_files work_dir opts files))) 0
                 then Ok tt else Err (RuntimeError "Cython build failed")) /\
    (forall p, In p (s_fs s) -> In p (s_fs (snd (m s)))).
Proof.
  intros m. unfold m.
  set (sg := snd (generate_build_script work_dir opts files s)).
  assert (Eg : generate_build_script work_dir opts files s = (Ok (build_rel_files work_dir opts files), sg))
    by (rewrite generate_spec; reflexivity).
  assert (Hsg : s_trace sg = (s_trace s ++ [EvWrite (script_path work_dir)])%list)
    by (unfold sg; rewrite generate_spec; reflexivity).
  rewrite (bind_ok _ _ _ _ _ Eg).
  destruct (run_spec (build_rel_files work_dir opts files) sg) as [tr1 [Ht1 [Hc1 [Hw1 [Hr1 [Hs1 _]]]]]].
  exists (EvWrite (script_path work_dir) :: EvToolchain (build_rel_files work_dir opts files) :: tr1)%list.
  split; [| split; [| split; [| split]]].
  - rewrite Ht1, Hsg. repeat rewrite <- app_assoc. reflexivity.
  - change (EvWrite (script_path work_dir) :: EvToolchain (build_rel_files work_dir opts files) :: tr1)%list
      with ([EvWrite (script_path work_dir); EvToolchain (build_rel_files work_dir opts files)] ++ tr1)%list.
    rewrite toolchain_calls_app, Hc1. reflexivity.
  - intros p [Hp | [Hp | Hp]]; [injection Hp as <-; left; reflexivity | discriminate | apply Hw1, Hp].
  - exact Hr1.
  - intros p Hp. apply Hs1, generate_grows, Hp.
Qed.

(** Past resolution, a run empties the output directory and goes on from
    there. *)
Lemma compile_after_clear (ex : string -> bool) (T : src_tree) (opts : CompileOptions)
    (f0 : string) (rest : list string) (s : state) :
  get_compile_files ex T opts = Ok (f0 :: rest) ->
  exists s1,
    (exists tr, s_trace s1 = (s_trace s ++ tr)%list /\ toolchain_calls tr = [] /\
                forall p, ~ In (EvWrite p) tr) /\
    (forall p, In p (s_fs s1) -> startswith p (join work_dir (output_dir opts) ++ "/") = false) /\
    compile is_windows toolchain py_ok cache_tag work_dir ex T opts s =
    ((if is_windows then build_each toolchain work_dir opts (f0 :: rest)
      else script <- generate_build_script work_dir opts (f0 :: rest) ;;
           run_cython_build toolchain work_dir script) ;;;
     collect_output py_ok cache_tag work_dir T opts (f0 :: rest) ;;;
     (if release opts then clear_tmp_files work_dir else ret tt) ;;;
     ret (output_dir opts)) s1.
Proof.
  intros H. destruct (clear_spec opts s) as [s1 [Hc [Htr [_ Hout]]]].
  exists s1. split; [exact Htr |]. split; [exact Hout |].
  unfold compile. rewrite H. rewrite (bind_ok _ _ _ _ _ Hc). reflexivity.
Qed.

End Phases.

Lemma set_list_order_of_checks (a b l : list string) :
  nodup string_dec l = l ->
  forallb (fun x => mem x a && negb (mem x b)) l = true ->
  forallb (fun x => mem x b || mem x l) a = true ->
  set_list_order a b l.
Proof.
  intros Hn H1 H2. split; [rewrite <- Hn; apply NoDup_nodup |].
  intros x. split.
  - intros Hx. rewrite forallb_forall in H1. specialize (H1 x Hx).
    apply andb_true_iff in H1 as [Ha Hb]. split; [apply mem_In, Ha |].
    intros Hb'. apply mem_In in Hb'. rewrite Hb' in Hb. discriminate.
  - intros [Ha Hb]. rewrite forallb_forall in H2. specialize (H2 x Ha).
    apply orb_true_iff in H2 as [H2 | H2]; [exfalso; apply Hb, mem_In, H2 | apply mem_In, H2].
Qed.

(** The order [compile_rel] lists is one of the possible ones. *)
Lemma compile_rel_order (T : src_tree) (excl : list string) :
  set_list_order (compile_candidates T) excl (compile_rel T excl).
Proof.
  split; [apply NoDup_nodup |].
  intros x. unfold compile_rel. rewrite In_py_set_diff. reflexivity.
Qed.

Lemma set_list_order_perm (a b l1 l2 : list string) :
  set_list_order a b l1 -> set_list_order a b l2 -> Permutation l1 l2.
Proof.
  intros [N1 H1] [N2 H2]. apply NoDup_Permutation; [exact N1 | exact N2 |].
  intros x. rewrite H1, H2. reflexivity.
Qed.

(** ** Lemmas on the command line *)

Lemma prefix_app (p x : string) : startswith (p ++ x) p = true.
Proof.
  unfold startswith. induction p as [| c p IH]; [destruct x; reflexivity |].
  cbn [String.prefix append]. destruct (ascii_dec c c); [exact IH | congruence].
Qed.

Lemma drop_app (a b : string) : drop (String.length a) (a ++ b) = b.
Proof. induction a as [| c a IH]; [reflexivity | exact IH]. Qed.

Lemma endswith_slash_app (x b : string) :
  b <> "" -> endswith b "/" = false -> endswith (x ++ b) "/" = false.
Proof.
  intros Hb Hend. destruct (endswith (x ++ b) "/") eqn:E; [| reflexivity].
  apply endswith_spec in E as [y Hy].
  destruct (str_app_eq_app _ _ _ _ Hy) as [m [[Hm1 Hm2] | [Hm1 Hm2]]].
  - rewrite Hm2, endswith_app in Hend. discriminate.
  - destruct m as [| c m].
    + cbn in Hm2. subst b. vm_compute in Hend. discriminate.
    + cbn in Hm2. injection Hm2 as _ Hm2. destruct m, b; cbn in Hm2; congruence.
Qed.

(** The absolute form of a relative source directory. *)
Lemma abspath_relative (work_dir sd : string) :
  startswith work_dir "/" = true -> endswith work_dir "/" = false ->
  startswith sd "/" = false ->
  abspath work_dir sd = work_dir ++ "/" ++ sd.
Proof.
  intros Hw1 Hw2 Hsd. unfold abspath, join. rewrite Hsd, Hw2.
  destruct work_dir; [discriminate | reflexivity].
Qed.

Lemma relpath_below (A r : string) : relpath (A ++ "/" ++ r) A = r.
Proof.
  unfold relpath.
  destruct (String.eqb_spec (A ++ "/" ++ r) A) as [E | _].
  - exfalso. apply (f_equal String.length) in E.
    rewrite str_length_app in E. cbn in E. lia.
  - rewrite <- str_app_assoc, prefix_app.
    replace (String.length A + 1) with (String.length (A ++ "/")) by (rewrite str_length_app; reflexivity).
    apply drop_app.
Qed.

(** [os.walk(A)] reaches a file of the tree at [A/rel_path]. *)
Lemma walk_path (A : string) (e : entry) :
  A <> "" -> endswith A "/" = false -> wf_entry e = true ->
  join (if String.eqb (e_dir e) "" then A else join A (e_dir e)) (e_name e) =
  A ++ "/" ++ rel_path e.
Proof.
  intros HA HAe Hwf. destruct (wf_entry_name e Hwf) as [Hn [Hs [Hd1 [Hd2 _]]]].
  pose proof (name_relative _ Hn Hs) as Hnr.
  assert (HAn : String.eqb A "" = false) by (apply String.eqb_neq; exact HA).
  unfold rel_path. destruct (String.eqb_spec (e_dir e) "") as [Ed | Ed].
  - rewrite Ed, join_empty_l. unfold join. rewrite Hnr, HAn, HAe. reflexivity.
  - assert (Hj : join A (e_dir e) = A ++ "/" ++ e_dir e)
      by (unfold join; rewrite Hd1, HAn, HAe; reflexivity).
    rewrite Hj. unfold join. rewrite Hnr.
    assert (Hne : String.eqb (A ++ "/" ++ e_dir e) "" = false)
      by (destruct A; [congruence | reflexivity]).
    assert (He : endswith (A ++ "/" ++ e_dir e) "/" = false)
      by (rewrite <- str_app_assoc; apply endswith_slash_app; assumption).
    rewrite Hne, He.
    assert (Hde : String.eqb (e_dir e) "" = false) by (apply String.eqb_neq; exact Ed).
    rewrite Hde, Hd2. rewrite !str_app_assoc. reflexivity.
Qed.

Lemma py_set_diff_nil (a b : list string) :
  (forall x, In x a -> In x b) -> py_set_diff a b = [].
Proof.
  intros Hall. destruct (py_set_diff a b) as [| x l] eqn:E; [reflexivity |].
  exfalso. assert (Hx : In x (py_set_diff a b)) by (rewrite E; left; reflexivity).
  apply In_py_set_diff in Hx as [Ha Hb]. apply Hb, Hall, Ha.
Qed.

(** With the bytecode target equal to a relative source directory, every
    source file resolution starts from is among the bytecode exclusions. *)
Lemma bytecode_excludes_whole_dir (work_dir sd : string) (T : src_tree) :
  wf_tree T = true ->
  startswith work_dir "/" = true -> endswith work_dir "/" = false ->
  String.eqb sd "" = false -> startswith sd "/" = false -> rstrip_seps sd = sd ->
  forall x, In x (compile_candidates T) -> In x (get_bytecode_excludes work_dir sd sd T).
Proof.
  intros Hwf Hw1 Hw2 Hsd0 Hsd1 Hrs x Hx.
  set (A := work_dir ++ "/" ++ sd).
  assert (HA : abspath work_dir sd = A) by (apply abspath_relative; assumption).
  assert (HAne : A <> "") by (unfold A; destruct work_dir; [discriminate Hw1 | intros H; discriminate H]).
  assert (HAe : endswith A "/" = false).
  { unfold A. rewrite <- str_app_assoc. apply endswith_slash_app.
    - apply String.eqb_neq. exact Hsd0.
    - destruct (endswith sd "/") eqn:E; [| reflexivity].
      exfalso. apply endswith_spec in E as [y Hy]. subst sd.
      revert Hrs. unfold rstrip_seps. rewrite string_rev_app. cbn [string_rev append lstrip_by].
      rewrite Ascii.eqb_refl. cbn [orb].
      intros Hrs. apply (f_equal String.length) in Hrs.
      assert (Hle : forall f s, String.length (lstrip_by f s) <= String.length s).
      { intros f s. induction s as [| c s IH]; cbn [lstrip_by]; [lia |].
        destruct (f c); cbn; lia. }
      assert (Hrl : forall s, String.length (string_rev s) = String.length s).
      { intros s. induction s as [| c s IH]; [reflexivity |].
        cbn [string_rev]. rewrite str_length_app, IH. cbn. lia. }
      rewrite Hrl, str_length_app in Hrs. cbn in Hrs.
      specialize (Hle (fun c => Ascii.eqb c "/" || Ascii.eqb c "\") (string_rev y)).
      rewrite Hrl in Hle. lia. }
  assert (Hrel : relpath A A = ".") by (unfold relpath; rewrite String.eqb_refl; reflexivity).
  unfold get_bytecode_excludes, isfile_rel. cbv zeta. rewrite Hrs, HA, Hrel.
  rewrite !String.eqb_refl. cbn [orb negb andb].
  unfold compile_candidates, get_files_in_dir_rel in Hx.
  apply filter_In in Hx as [Hx _]. apply in_map_iff in Hx as [e [<- He]].
  apply filter_In in He as [He Hm].
  apply in_map_iff. exists (A ++ "/" ++ rel_path e). split; [apply relpath_below |].
  unfold walk_files. apply in_flat_map. exists e. split; [exact He |].
  rewrite Hm. cbn [rel_under String.eqb].
  rewrite walk_path by (try assumption; apply (wf_tree_In T e Hwf He)).
  left. reflexivity.
Qed.

(** * Claims *)

(** C1: on a source directory, the files selected for native compilation,
    the non-compiled files that output collection copies verbatim, and the
    package-init files (the non-bytecode files whose path ends in
    [__init__.py], the test the code uses) cover exactly the non-[.pyc]
    files of the source directory and are pairwise disjoint. *)
Theorem file_classification_partition (ex : string -> bool) (T : src_tree)
    (opts : CompileOptions) (sd : string) (C : list string) :
  py_opt (source_dir opts) = Some sd -> py_opt (source_file opts) = None ->
  get_compile_files ex T opts = Ok C ->
  forall p,
    (In p (non_bytecode_files sd T) <->
       In p C \/ In p (verbatim_files (get_non_compile_files T opts C)) \/
       In p (package_init_files sd T)) /\
    ~ (In p C /\ In p (verbatim_files (get_non_compile_files T opts C))) /\
    ~ (In p C /\ In p (package_init_files sd T)) /\
    ~ (In p (verbatim_files (get_non_compile_files T opts C)) /\
       In p (package_init_files sd T)).
Proof.
  intros Hsd Hsf HC p.
  pose proof (get_compile_files_dir _ _ _ _ _ Hsd Hsf HC) as HCe.
  assert (HN : get_non_compile_files T opts C
               = py_set_diff (non_bytecode_files sd T) C)
    by (unfold get_non_compile_files; rewrite Hsd; reflexivity).
  assert (Hcls : In p C ->
                 In p (non_bytecode_files sd T) /\ endswith p "__init__.py" = false)
    by (rewrite HCe; apply compile_file_class).
  unfold verbatim_files, package_init_files. rewrite HN.
  rewrite !filter_In, !In_py_set_diff.
  destruct (in_dec string_dec p C) as [Hin | Hnin];
    destruct (endswith p "__init__.py") eqn:E; simpl;
    try (destruct (Hcls Hin) as [H1 H2]; congruence);
    intuition congruence.
Qed.

Lemma file_classification_partition_witness :
  py_opt (source_dir (pkg_opts [])) = Some "pkg" /\
  py_opt (source_file (pkg_opts [])) = None /\
  get_compile_files always_exists pkg_tree (pkg_opts [])
    = Ok ["pkg/a.py"; "pkg/sub/b.py"; "pkg/sub/deep/c.py"] /\
  (In "pkg/data.json" (non_bytecode_files "pkg" pkg_tree) <->
     In "pkg/data.json" ["pkg/a.py"; "pkg/sub/b.py"; "pkg/sub/deep/c.py"] \/
     In "pkg/data.json" (verbatim_files (get_non_compile_files pkg_tree (pkg_opts [])
                                           ["pkg/a.py"; "pkg/sub/b.py"; "pkg/sub/deep/c.py"])) \/
     In "pkg/data.json" (package_init_files "pkg" pkg_tree)).
Proof.
  split; [reflexivity|]. split; [reflexivity|]. split; [vm_compute; reflexivity|].
  apply (file_classification_partition always_exists pkg_tree (pkg_opts []) "pkg"
           ["pkg/a.py"; "pkg/sub/b.py"; "pkg/sub/deep/c.py"]); vm_compute; reflexivity.
Defined.

(** C2: for every tree and every exclusion value, a file selected for
    native compilation is, relative to the source directory, not in the
    expanded exclusion list, and every file compiled under exclusions is
    also compiled with no exclusions. *)
Theorem compiled_excludes_monotone (ex : string -> bool) (T : src_tree)
    (opts : CompileOptions) (sd value : string) (C C0 : list string) :
  wf_tree T = true ->
  py_opt (source_dir opts) = Some sd -> py_opt (source_file opts) = None ->
  get_compile_files ex T (set_excludes opts (parse_exclude_files value sd T)) = Ok C ->
  get_compile_files ex T (set_excludes opts []) = Ok C0 ->
  (forall r, startswith r "/" = false -> In (join sd r) C ->
             ~ In r (parse_exclude_files value sd T)) /\
  (forall p, In p C -> In p C0).
Proof.
  intros Hwf Hsd Hsf HC HC0.
  apply get_compile_files_dir with (sd := sd) in HC; [|exact Hsd|exact Hsf].
  apply get_compile_files_dir with (sd := sd) in HC0; [|exact Hsd|exact Hsf].
  simpl in HC, HC0. subst C C0. split.
  - intros r Hr Hin. apply in_map_iff in Hin as [r' [Hj Hr']].
    pose proof Hr' as Hr''. apply In_compile_rel in Hr'' as [[e [He [_ ->]]] [_ Hx]].
    apply join_inj in Hj; [congruence | | exact Hr].
    apply rel_path_relative. now apply (wf_tree_In T).
  - intros p Hp. apply in_map_iff in Hp as [r [<- Hr]]. apply in_map.
    apply In_compile_rel in Hr as [Hs [Hi _]]. apply In_compile_rel. auto.
Qed.

Lemma compiled_excludes_monotone_witness :
  wf_tree pkg_tree = true /\
  get_compile_files always_exists pkg_tree
    (set_excludes (pkg_opts []) (parse_exclude_files "sub/" "pkg" pkg_tree))
    = Ok ["pkg/a.py"] /\
  get_compile_files always_exists pkg_tree (set_excludes (pkg_opts []) [])
    = Ok ["pkg/a.py"; "pkg/sub/b.py"; "pkg/sub/deep/c.py"] /\
  ~ In "a.py" (parse_exclude_files "sub/" "pkg" pkg_tree) /\
  In "pkg/a.py" ["pkg/a.py"; "pkg/sub/b.py"; "pkg/sub/deep/c.py"].
Proof.
  destruct (compiled_excludes_monotone always_exists pkg_tree (pkg_opts []) "pkg" "sub/"
              ["pkg/a.py"] ["pkg/a.py"; "pkg/sub/b.py"; "pkg/sub/deep/c.py"])
    as [H1 H2]; [vm_compute; reflexivity .. |].
  split; [vm_compute; reflexivity|]. split; [vm_compute; reflexivity|].
  split; [vm_compute; reflexivity|]. split.
  - apply H1; [reflexivity | simpl; left; reflexivity].
  - apply H2. simpl. left. reflexivity.
Defined.

(** C7 (amended): an exclusion entry naming the source root itself
    contributes nothing to the exclusion list; an entry [d/] naming an
    existing sub-directory [d] (in normal form) expands to exactly the
    files of every extension present under [d] in the tree it is resolved
    against, so the native-compile set loses exactly the source files under
    [d]; a file added to the tree after resolution is not excluded by it. *)
Theorem exclusion_entry_expansion (root d : string) (T : src_tree) :
  wf_tree T = true -> String.eqb d "" = false -> endswith d "/" = false ->
  mem d (st_dirs T) = true -> startswith d "/" = false ->
  strip (d ++ "/") = d ++ "/" -> normalize_sep (d ++ "/") = d ++ "/" ->
  has_char "," d = false ->
  startswith (d ++ "/") (normalize_sep root ++ "/") = false ->
  String.eqb (d ++ "/") (normalize_sep root) = false ->
  (forall value, parse_exclude_files value root T =
     flat_map (exclude_entry root T)
       (filter (fun raw => negb (is_root_entry root raw)) (split_on "," value))) /\
  (forall x, In x (parse_exclude_files (d ++ "/") root T) <->
     exists e, In e (st_files T) /\ under_dir d e = true /\ x = rel_path e) /\
  (forall r, In r (compile_rel T (parse_exclude_files (d ++ "/") root T)) <->
     In r (compile_rel T []) /\
     ~ (exists e, In e (st_files T) /\ under_dir d e = true /\ r = rel_path e)) /\
  (forall e_new, ~ In (rel_path e_new) (map rel_path (st_files T)) ->
     match_ext (ext_names [".py"]) (e_name e_new) = true ->
     endswith (rel_path e_new) "__init__.py" = false ->
     In (rel_path e_new)
        (compile_rel (add_file T e_new) (parse_exclude_files (d ++ "/") root T))).
Proof.
  intros Hwf Hd Hdend Hdir Hdabs Hstrip Hnorm Hcomma Hpre Hroot.
  assert (Hd' : d <> "") by (intros ->; discriminate).
  assert (Hparse : parse_exclude_files (d ++ "/") root T
                   = map (join d) (files_under T d)).
  { unfold parse_exclude_files.
    rewrite split_on_no_char by (rewrite has_char_app, Hcomma; reflexivity).
    cbn [flat_map]. rewrite app_nil_r.
    unfold exclude_entry. cbv zeta. rewrite Hstrip.
    assert (Hne : String.eqb (d ++ "/") "" = false)
      by (destruct d; [discriminate | reflexivity]).
    rewrite Hne, Hnorm, Hpre, Hroot, endswith_app, rstrip_sep_slash by exact Hdend.
    unfold isdir_rel. rewrite Hdabs, Hd, Hdir. reflexivity. }
  assert (Hexp : forall x, In x (parse_exclude_files (d ++ "/") root T) <->
            exists e, In e (st_files T) /\ under_dir d e = true /\ x = rel_path e)
    by (intros x; rewrite Hparse; apply expand_dir; auto).
  split; [|split; [exact Hexp | split]].
  - intros value. apply flat_map_skip. intros raw. apply root_entry_nothing.
  - intros r. rewrite !In_compile_rel, Hexp. split.
    + intros [Hs [Hi Hx]]. split; auto.
    + intros [[Hs [Hi _]] Hx]. auto.
  - intros e_new Hnew Hm Hi. apply In_compile_rel. split; [|split; [exact Hi|]].
    + exists e_new. split; [|auto]. simpl. apply in_or_app. right. now left.
    + intros Hin. apply Hexp in Hin as [e [He [_ Heq]]]. apply Hnew.
      rewrite Heq. now apply in_map.
Qed.

Lemma exclusion_entry_expansion_witness :
  In "sub/notes.txt" (parse_exclude_files "sub/" "pkg" pkg_tree) /\
  In "c2.py" (compile_rel (add_file pkg_tree (mkEntry "" "c2.py"))
                          (parse_exclude_files "sub/" "pkg" pkg_tree)).
Proof.
  destruct (exclusion_entry_expansion "pkg" "sub" pkg_tree)
    as [_ [H2 [_ H4]]]; [vm_compute; reflexivity .. |].
  split.
  - apply H2. exists (mkEntry "sub" "notes.txt").
    split; [simpl; tauto | split; reflexivity].
  - apply (H4 (mkEntry "" "c2.py")); [| reflexivity | reflexivity].
    vm_compute. intros H. repeat (destruct H as [H|H]; [discriminate H|]). exact H.
Defined.

(** C7 as stated fails: the directory entry [sub/] expands to every file
    under [sub], also [sub/notes.txt], which is not a source file, so the
    expansion is not exactly the source files under the directory. *)
Lemma exclusion_dir_not_only_sources :
  ~ (forall x, In x (parse_exclude_files "sub/" "pkg" pkg_tree) <->
       exists e, In e (st_files pkg_tree) /\ under_dir "sub" e = true /\
                 match_ext (ext_names [".py"]) (e_name e) = true /\
                 x = rel_path e).
Proof.
  intros H. destruct (proj1 (H "sub/notes.txt")) as [e [He [_ [Hm Hx]]]].
  - vm_compute. tauto.
  - simpl in He.
    repeat (destruct He as [<-|He]; [vm_compute in Hm, Hx; discriminate|]).
    exact He.
Qed.

(** C9: package-init classification is a suffix test on the path: every
    file of the source directory whose relative path ends with
    [__init__.py] (also a module named [my__init__.py]) is not selected for
    native compilation, is among the non-compiled files, and output
    collection compiles it to bytecode instead of copying it. *)
Theorem init_suffix_to_bytecode (ex : string -> bool) (T : src_tree)
    (opts : CompileOptions) (sd work_dir : string) (C : list string) (e : entry) :
  py_opt (source_dir opts) = Some sd -> py_opt (source_file opts) = None ->
  get_compile_files ex T opts = Ok C ->
  In e (st_files T) -> endswith (rel_path e) "__init__.py" = true ->
  ~ In (join sd (rel_path e)) C /\
  In (join sd (rel_path e)) (get_non_compile_files T opts C) /\
  collect_action work_dir (join work_dir (output_dir opts)) (join sd (rel_path e))
  = InitToPyc (join work_dir (join sd (rel_path e)))
              (join (join work_dir (output_dir opts)) (join sd (rel_path e))).
Proof.
  intros Hsd Hsf HC He Hi.
  pose proof (get_compile_files_dir _ _ _ _ _ Hsd Hsf HC) as HCe.
  assert (Hj : endswith (join sd (rel_path e)) "__init__.py" = true)
    by (now apply endswith_join).
  assert (Hn : ~ In (join sd (rel_path e)) C).
  { intros Hin. rewrite HCe in Hin. apply compile_file_class in Hin as [_ Hf].
    congruence. }
  split; [exact Hn | split].
  - unfold get_non_compile_files. rewrite Hsd. apply In_py_set_diff.
    split; [|exact Hn]. apply In_non_bytecode. exists e.
    split; [exact He | split; [now apply init_not_pyc | reflexivity]].
  - unfold collect_action. now rewrite Hj.
Qed.

Lemma init_suffix_to_bytecode_witness :
  ~ In "pkg/my__init__.py" ["pkg/a.py"; "pkg/sub/b.py"; "pkg/sub/deep/c.py"] /\
  collect_action "/w" "/w/dist" "pkg/my__init__.py"
  = InitToPyc "/w/pkg/my__init__.py" "/w/dist/pkg/my__init__.py".
Proof.
  destruct (init_suffix_to_bytecode always_exists pkg_tree (pkg_opts []) "pkg" "/w"
              ["pkg/a.py"; "pkg/sub/b.py"; "pkg/sub/deep/c.py"] (mkEntry "" "my__init__.py"))
    as [H1 [_ H3]]; [vm_compute; reflexivity | reflexivity | vm_compute; reflexivity
                     | simpl; tauto | reflexivity |].
  split; [exact H1 | exact H3].
Defined.

(** C10: when resolution yields an empty native-compile set, [compile]
    fails with "No files to compile" and returns the state it was given: no
    file written or removed (neither the workspace nor the output directory)
    and no toolchain invocation. *)
Theorem empty_compile_set_fails_early (is_windows : bool)
    (tc : list string -> nat * list string) (py_ok : string -> bool)
    (cache_tag work_dir : string) (ex : string -> bool) (T : src_tree)
    (opts : CompileOptions) (s : state) :
  get_compile_files ex T opts = Ok [] ->
  compile is_windows tc py_ok cache_tag work_dir ex T opts s =
  (Err (ValueError "No files to compile"), s).
Proof. intros H. unfold compile. rewrite H. reflexivity. Qed.

Lemma empty_compile_set_fails_early_witness :
  get_compile_files always_exists
    (mkTree ["sub"] [mkEntry "" "__init__.py"; mkEntry "sub" "README.md"])
    (pkg_opts []) = Ok [] /\
  compile false tc_ok (fun _ => true) "cpython-312" "/w" always_exists
    (mkTree ["sub"] [mkEntry "" "__init__.py"; mkEntry "sub" "README.md"])
    (pkg_opts []) (mkState ["/w/dist/old.txt"] []) =
  (Err (ValueError "No files to compile"), mkState ["/w/dist/old.txt"] []).
Proof.
  split; [vm_compute; reflexivity |].
  apply empty_compile_set_fails_early. vm_compute. reflexivity.
Defined.







(** C8 (amended): the compile set is stable in membership only: every order
    [list(set(...) - set(...))] can yield, [compile_rel]'s among them, is a
    permutation of any other, so two runs may process the files in different
    orders.  On the per-file path the files are processed one by one in the
    order of the run: the toolchain is invoked for each file up to and
    including the first failing one and for no later file, the failure is
    raised, and nothing is cleaned up (every file present before stays, and
    the artifacts of every attempted file stay in the build directory). *)
Theorem per_file_membership_stable (tc : list string -> nat * list string)
    (work_dir sd : string) (T : src_tree) (opts : CompileOptions)
    (l1 l2 : list string) (s : state) :
  set_list_order (compile_candidates T) (exclude_files opts) l1 ->
  set_list_order (compile_candidates T) (exclude_files opts) l2 ->
  Permutation l1 l2 /\ Permutation l1 (compile_rel T (exclude_files opts)) /\
  exists tr,
    s_trace (snd (build_each tc work_dir opts (map (join sd) l1) s)) = (s_trace s ++ tr)%list /\
    toolchain_calls tr =
      map (fun f => build_rel_files work_dir opts [f])
          (attempted tc (fun f => build_rel_files work_dir opts [f]) (map (join sd) l1)) /\
    fst (build_each tc work_dir opts (map (join sd) l1) s) =
      (if existsb (fun f => negb (Nat.eqb (fst (tc (build_rel_files work_dir opts [f]))) 0))
                  (map (join sd) l1)
       then Err (RuntimeError "Cython build failed") else Ok tt) /\
    (forall p, In p (s_fs s) ->
       In p (s_fs (snd (build_each tc work_dir opts (map (join sd) l1) s)))) /\
    (forall f a,
       In f (attempted tc (fun f => build_rel_files work_dir opts [f]) (map (join sd) l1)) ->
       In a (snd (tc (build_rel_files work_dir opts [f]))) ->
       In (join (build_dir work_dir) a)
          (s_fs (snd (build_each tc work_dir opts (map (join sd) l1) s)))).
Proof.
  intros H1 H2. split; [exact (set_list_order_perm _ _ _ _ H1 H2) |].
  split; [exact (set_list_order_perm _ _ _ _ H1 (compile_rel_order T (exclude_files opts))) |].
  destruct (build_each_spec tc work_dir opts (map (join sd) l1) s)
    as [tr [Ht [Hc [_ [Hr [Hs Ha]]]]]].
  exists tr. auto.
Qed.

Lemma per_file_membership_stable_witness :
  Permutation ["a.py"; "sub/b.py"; "sub/deep/c.py"] ["sub/deep/c.py"; "sub/b.py"; "a.py"] /\
  Permutation ["a.py"; "sub/b.py"; "sub/deep/c.py"] (compile_rel pkg_tree []) /\
  fst (build_each tc_fail_b "/w" (pkg_opts []) (map (join "pkg") ["a.py"; "sub/b.py"; "sub/deep/c.py"])
         (mkState [] [])) = Err (RuntimeError "Cython build failed").
Proof.
  destruct (per_file_membership_stable tc_fail_b "/w" "pkg" pkg_tree (pkg_opts [])
              ["a.py"; "sub/b.py"; "sub/deep/c.py"] ["sub/deep/c.py"; "sub/b.py"; "a.py"]
              (mkState [] []))
    as [Hp [Hq [tr [_ [_ [Hr _]]]]]];
    [apply set_list_order_of_checks; vm_compute; reflexivity .. |].
  split; [exact Hp | split; [exact Hq | rewrite Hr; vm_compute; reflexivity]].
Defined.

(** C8 counterexample: two orders resolution can yield for [pkg_tree] give
    two runs of the per-file path with different invocation sequences; with
    the toolchain failing on [pkg/sub/b.py], one run builds [pkg/a.py]
    before failing and the other fails before building anything. *)
Lemma per_file_order_not_stable :
  set_list_order (compile_candidates pkg_tree) [] ["a.py"; "sub/b.py"; "sub/deep/c.py"] /\
  set_list_order (compile_candidates pkg_tree) [] ["sub/b.py"; "a.py"; "sub/deep/c.py"] /\
  toolchain_calls (s_trace (snd (build_each tc_fail_b "/w" (pkg_opts [])
      (map (join "pkg") ["a.py"; "sub/b.py"; "sub/deep/c.py"]) (mkState [] [])))) =
    [["pkg/a.py"]; ["pkg/sub/b.py"]] /\
  toolchain_calls (s_trace (snd (build_each tc_fail_b "/w" (pkg_opts [])
      (map (join "pkg") ["sub/b.py"; "a.py"; "sub/deep/c.py"]) (mkState [] [])))) =
    [["pkg/sub/b.py"]].
Proof.
  split; [apply set_list_order_of_checks; vm_compute; reflexivity |].
  split; [apply set_list_order_of_checks; vm_compute; reflexivity |].
  split; vm_compute; reflexivity.
Qed.

(** C4 (code bug): with a directory compile of a relative source directory
    and the bytecode target equal to it ([-d sd -b sd]), every source file
    resolution starts from is added to the exclusions and the native
    compile set is empty, as the claim says; but [compile] then raises "No
    files to compile", [main] exits with status 1, and the bytecode step is
    never reached: the run ends with the state it started from. *)
Theorem bytecode_whole_dir_run_aborts (is_windows : bool)
    (tc : list string -> nat * list string) (py_ok : string -> bool)
    (cache_tag work_dir : string) (ex : string -> bool) (T : src_tree)
    (sd output : string) (release_flag : bool) (s : state) :
  wf_tree T = true ->
  startswith work_dir "/" = true -> endswith work_dir "/" = false ->
  String.eqb sd "" = false -> startswith sd "/" = false ->
  rstrip_seps sd = sd -> rstrip_sep sd = sd -> ex sd = true ->
  (forall x, In x (compile_candidates T) -> In x (get_bytecode_excludes work_dir sd sd T)) /\
  compile_rel T (nodup string_dec (get_bytecode_excludes work_dir sd sd T)) = [] /\
  cli_main_dir is_windows tc py_ok cache_tag work_dir ex T sd output "" (Some sd)
    release_flag s = (Ok 1, s).
Proof.
  intros Hwf Hw1 Hw2 Hsd0 Hsd1 Hrs Hrs' Hex.
  pose proof (bytecode_excludes_whole_dir work_dir sd T Hwf Hw1 Hw2 Hsd0 Hsd1 Hrs) as Hall.
  assert (Hnil : compile_rel T (nodup string_dec (get_bytecode_excludes work_dir sd sd T)) = []).
  { unfold compile_rel. apply py_set_diff_nil. intros x Hx. apply nodup_In. apply Hall, Hx. }
  split; [exact Hall | split; [exact Hnil |]].
  assert (Hpy : py_opt (Some sd) = Some sd) by (destruct sd; [discriminate Hsd0 | reflexivity]).
  unfold cli_main_dir. cbv zeta. cbn [String.eqb app]. rewrite Hrs'.
  assert (Hc : compile is_windows tc py_ok cache_tag work_dir ex T
                 (mkOptions None (Some sd) (nodup string_dec (get_bytecode_excludes work_dir sd sd T))
                    output release_flag) s = (Err (ValueError "No files to compile"), s)).
  { unfold compile, get_compile_files. cbn [source_dir source_file exclude_files].
    rewrite Hpy, Hex, Hnil. reflexivity. }
  unfold bind at 1, catch. rewrite (bind_err _ _ _ _ _ Hc). reflexivity.
Qed.

Lemma bytecode_whole_dir_run_aborts_witness :
  compile_rel pkg_tree (nodup string_dec (get_bytecode_excludes "/w" "pkg" "pkg" pkg_tree)) = [] /\
  cli_main_dir false tc_ok (fun _ => true) "cpython-312" "/w" always_exists pkg_tree
    "pkg" "dist" "" (Some "pkg") false (mkState ["/w/dist/old.txt"] []) =
  (Ok 1, mkState ["/w/dist/old.txt"] []).
Proof.
  destruct (bytecode_whole_dir_run_aborts false tc_ok (fun _ => true) "cpython-312" "/w"
              always_exists pkg_tree "pkg" "dist" false (mkState ["/w/dist/old.txt"] []))
    as [_ [H1 H2]]; [vm_compute; reflexivity .. |].
  split; [exact H1 | exact H2].
Defined.

(** C3 (code bug): with an absolute source directory ([-d /src/pkg], run
    from [/w] into [dist]), the package-init file [__init__.py] is compiled
    to [/src/pkg/__init__.pyc], inside the source tree, and no
    [__init__.pyc] appears in the output directory, while the native module
    built from [a.py] beside it does reach [/w/dist/pkg/a.so]. *)
Theorem init_pyc_absolute_source_dir :
  fst (compile false tc_ok (fun _ => true) "cpython-312" "/w" always_exists
         init_tree abs_opts abs_start) = Ok "dist" /\
  mem "/src/pkg/__init__.pyc"
    (s_fs (snd (compile false tc_ok (fun _ => true) "cpython-312" "/w" always_exists
                  init_tree abs_opts abs_start))) = true /\
  existsb (fun p => startswith p "/w/dist/" && endswith p "__init__.pyc")
    (s_fs (snd (compile false tc_ok (fun _ => true) "cpython-312" "/w" always_exists
                  init_tree abs_opts abs_start))) = false /\
  mem "/w/dist/pkg/a.so"
    (s_fs (snd (compile false tc_ok (fun _ => true) "cpython-312" "/w" always_exists
                  init_tree abs_opts abs_start))) = true.
Proof. split; [| split; [| split]]; vm_compute; reflexivity. Qed.

(** * Further properties of the code *)

Lemma rfind_none (c : ascii) (s : string) : has_char c s = false -> rfind c s = None.
Proof.
  induction s as [|a s IH]; cbn [has_char rfind]; [reflexivity|].
  intros H. apply orb_false_iff in H as [Ha Hs]. rewrite (IH Hs), Ha. reflexivity.
Qed.

Lemma rfind_app (c : ascii) (a b : string) :
  rfind c (a ++ b) =
  match rfind c b with
  | Some i => Some (String.length a + i)
  | None => rfind c a
  end.
Proof.
  induction a as [|x a IH]; cbn [append rfind String.length].
  - destruct (rfind c b); reflexivity.
  - rewrite IH. destruct (rfind c b); reflexivity.
Qed.

Lemma rfind_sep (c : ascii) (a b : string) :
  has_char c b = false -> rfind c (a ++ String c b) = Some (String.length a).
Proof.
  intros H. rewrite rfind_app. cbn [rfind]. rewrite rfind_none by exact H.
  rewrite Ascii.eqb_refl. f_equal. lia.
Qed.

Lemma substring_app_l (a b : string) : substring 0 (String.length a) (a ++ b) = a.
Proof. induction a as [|x a IH]; cbn; [destruct b; reflexivity | now rewrite IH]. Qed.

Lemma substring_app_r (a b : string) (k m : nat) :
  substring (String.length a + k) m (a ++ b) = substring k m b.
Proof. induction a as [|x a IH]; cbn; [reflexivity | exact IH]. Qed.

Lemma substring_all (b : string) : substring 0 (String.length b) b = b.
Proof. induction b as [|x b IH]; cbn; [reflexivity | now rewrite IH]. Qed.

Lemma basename_sep (a n : string) :
  has_char "/" n = false -> basename (a ++ "/" ++ n) = n.
Proof.
  intros H. unfold basename. change ("/" ++ n) with (String "/" n).
  rewrite rfind_sep by exact H.
  rewrite str_length_app. cbn [String.length].
  replace (String.length a + S (String.length n) - S (String.length a))%nat
    with (String.length n) by lia.
  replace (S (String.length a)) with (String.length a + 1)%nat by lia.
  rewrite substring_app_r. cbn [substring]. apply substring_all.
Qed.

Lemma basename_plain (n : string) : has_char "/" n = false -> basename n = n.
Proof. intros H. unfold basename. now rewrite rfind_none. Qed.

Lemma basename_app_sep (pre b : string) :
  b <> "" -> (pre = "" \/ endswith pre "/" = true) -> basename (pre ++ b) = basename b.
Proof.
  intros Hb [-> | Hpre]; [reflexivity|].
  unfold basename. rewrite rfind_app.
  destruct (rfind "/" b) as [i|] eqn:E.
  - rewrite (str_length_app pre b).
    replace (S (String.length pre + i)) with (String.length pre + S i)%nat by lia.
    replace (String.length pre + String.length b - (String.length pre + S i))%nat
      with (String.length b - S i)%nat by lia.
    rewrite substring_app_r. reflexivity.
  - apply endswith_spec in Hpre as [y ->].
    change (y ++ "/") with (y ++ String "/" "").
    rewrite rfind_sep by reflexivity.
    rewrite str_app_assoc. change (String "/" "" ++ b) with (String "/" b).
    rewrite str_length_app. cbn [String.length].
    replace (String.length y + S (String.length b) - S (String.length y))%nat
      with (String.length b) by lia.
    replace (S (String.length y)) with (String.length y + 1)%nat by lia.
    rewrite substring_app_r. cbn [substring]. apply substring_all.
Qed.

Lemma split_on_nonempty (c : ascii) (s : string) : split_on c s <> [].
Proof.
  destruct s as [|a s]; cbn [split_on]; [discriminate|].
  destruct (Ascii.eqb a c); [discriminate|]. destruct (split_on c s); discriminate.
Qed.

Lemma split_on_app_sep (c : ascii) (a b : string) :
  split_on c (a ++ String c b) = (split_on c a ++ split_on c b)%list.
Proof.
  induction a as [|x a IH]; cbn [append split_on].
  - rewrite Ascii.eqb_refl. reflexivity.
  - rewrite IH. destruct (Ascii.eqb x c); [reflexivity|].
    destruct (split_on c a) as [|y ys] eqn:E; [exfalso; exact (split_on_nonempty c a E)|].
    reflexivity.
Qed.

Lemma concat_cons_string (sep : string) (a : ascii) (x : string) (xs : list string) :
  String.concat sep (String a x :: xs) = String a (String.concat sep (x :: xs)).
Proof. destruct xs; reflexivity. Qed.

Lemma concat_split_on (c : ascii) (s : string) :
  String.concat (String c EmptyString) (split_on c s) = s.
Proof.
  induction s as [|a s IH]; cbn [split_on]; [reflexivity|].
  destruct (Ascii.eqb a c) eqn:E.
  - apply Ascii.eqb_eq in E as ->.
    destruct (split_on c s) as [|y ys] eqn:Es; [exfalso; exact (split_on_nonempty c s Es)|].
    cbn [String.concat]. rewrite <- IH. reflexivity.
  - destruct (split_on c s) as [|y ys] eqn:Es; [exfalso; exact (split_on_nonempty c s Es)|].
    rewrite concat_cons_string, IH. reflexivity.
Qed.

Lemma has_char_cons (c a : ascii) (s : string) :
  has_char c (String a s) = Ascii.eqb a c || has_char c s.
Proof. reflexivity. Qed.

(** [_collect_output] (lines 236-244): an artifact [D/n.<tag>.x] staged in
    the build directory, such as [pkg/sub/b.cpython-312-x86_64-linux-gnu.so],
    is copied to [<out>/D/n.x]: the platform tag is dropped and the
    directory [D] is kept. *)
Theorem native_artifact_drops_tag (work_dir out D n t x : string) :
  endswith D "/" = false ->
  has_char "/" n = false -> has_char "/" t = false -> has_char "/" x = false ->
  has_char "." n = false -> has_char "." x = false ->
  native_dest work_dir out (join D (n ++ "." ++ t ++ "." ++ x)) =
  join (join out D) (n ++ "." ++ x).
Proof.
  intros HD Hn Ht Hx Hnd Hxd.
  set (nm := n ++ "." ++ t ++ "." ++ x).
  assert (Hnm : has_char "/" nm = false).
  { unfold nm. change ("." ++ t ++ "." ++ x) with (String "." (t ++ String "." x)).
    rewrite has_char_app, has_char_cons, has_char_app, has_char_cons, Hn, Ht, Hx.
    reflexivity. }
  assert (Hnm0 : nm <> "").
  { unfold nm. destruct n; discriminate. }
  assert (Hnmrel : startswith nm "/" = false) by (apply name_relative; assumption).
  assert (Hsplit : split_on "." nm = (split_on "." n ++ split_on "." t ++ [x])%list).
  { unfold nm. change ("." ++ t ++ "." ++ x) with (String "." (t ++ String "." x)).
    rewrite split_on_app_sep, split_on_app_sep.
    rewrite (split_on_no_char "." x Hxd). reflexivity. }
  assert (Hfile : (hd "" (split_on "." nm) ++ "." ++ last (split_on "." nm) "")%string =
                  n ++ "." ++ x).
  { rewrite Hsplit, (split_on_no_char "." n Hnd). cbn [hd app].
    rewrite app_comm_cons, last_last. reflexivity. }
  unfold native_dest.
  destruct (String.eqb D "") eqn:ED.
  - apply String.eqb_eq in ED as ->. rewrite join_empty_l.
    rewrite (split_on_no_char "/" nm Hnm). cbn [removelast String.concat].
    destruct (join_prefix (build_dir work_dir) nm) as [pre [Hj Hpre]].
    rewrite Hj, basename_app_sep by assumption.
    rewrite basename_plain by exact Hnm. rewrite Hfile. reflexivity.
  - assert (HjD : join D nm = D ++ "/" ++ nm).
    { unfold join. rewrite Hnmrel, ED, HD. reflexivity. }
    rewrite HjD. change ("/" ++ nm) with (String "/" nm).
    rewrite split_on_app_sep, (split_on_no_char "/" nm Hnm), removelast_last.
    rewrite concat_split_on.
    destruct (join_prefix (build_dir work_dir) (D ++ String "/" nm)) as [pre [Hj Hpre]].
    rewrite Hj, basename_app_sep by first [assumption | destruct D; discriminate].
    change (String "/" nm) with ("/" ++ nm). rewrite basename_sep by exact Hnm.
    cbn [String.concat]. rewrite Hfile. reflexivity.
Qed.

Lemma lstrip_slash_all (s : string) :
  all_slashes s = true -> lstrip_by (Ascii.eqb "/") s = "".
Proof.
  induction s as [|c s IH]; cbn [lstrip_by all_slashes]; [reflexivity|].
  intros H. apply andb_true_iff in H as [Hc Hs].
  rewrite Ascii.eqb_sym, Hc. exact (IH Hs).
Qed.

Lemma all_slashes_app (a b : string) :
  all_slashes (a ++ b) = all_slashes a && all_slashes b.
Proof. induction a as [|c a IH]; cbn [append all_slashes]; [reflexivity | now rewrite IH, andb_assoc]. Qed.

Lemma all_slashes_rev (s : string) : all_slashes (string_rev s) = all_slashes s.
Proof.
  induction s as [|c s IH]; cbn [string_rev all_slashes]; [reflexivity|].
  rewrite all_slashes_app, IH. cbn [all_slashes]. rewrite andb_true_r, andb_comm. reflexivity.
Qed.

Lemma rstrip_sep_all (s : string) : all_slashes s = true -> rstrip_sep s = "".
Proof.
  intros H. unfold rstrip_sep. rewrite lstrip_slash_all; [reflexivity|].
  now rewrite all_slashes_rev.
Qed.

Lemma rstrip_sep_snoc (s : string) : rstrip_sep (s ++ "/") = rstrip_sep s.
Proof.
  unfold rstrip_sep. rewrite string_rev_app. reflexivity.
Qed.

(** [compile_dir] strips trailing separators from [source]: appending a
    separator changes nothing, and a source made only of separators becomes
    empty and is rejected by [_validate_options] before anything is
    touched. *)
Theorem compile_dir_trailing_sep (is_windows : bool) tc py_ok cache_tag work_dir
    (ex : string -> bool) (T : src_tree) (source out : string)
    (exclude : option (list string)) (release_flag : bool) :
  compile_dir is_windows tc py_ok cache_tag work_dir ex T (source ++ "/") out exclude release_flag =
  compile_dir is_windows tc py_ok cache_tag work_dir ex T source out exclude release_flag /\
  (all_slashes source = true -> forall s,
     compile_dir is_windows tc py_ok cache_tag work_dir ex T source out exclude release_flag s =
     (Err (ValueError "Must specify source_file or source_dir"), s)).
Proof.
  split.
  - unfold compile_dir. now rewrite rstrip_sep_snoc.
  - intros H s. unfold compile_dir, compiler_compile. rewrite (rstrip_sep_all _ H).
    reflexivity.
Qed.

Lemma no_tc_ret {A : Type} (a : A) : no_toolchain (ret a).
Proof. intros s. exists []. now rewrite app_nil_r. Qed.

Lemma no_tc_raise {A : Type} (e : error) : no_toolchain (@raise A e).
Proof. intros s. exists []. now rewrite app_nil_r. Qed.

Lemma no_tc_get_fs : no_toolchain get_fs.
Proof. intros s. exists []. now rewrite app_nil_r. Qed.

Lemma no_tc_write (p : string) : no_toolchain (write_file p).
Proof. intros s. exists [EvWrite p]. split; reflexivity. Qed.

Lemma no_tc_remove (p : string) : no_toolchain (remove_file p).
Proof.
  intros s. unfold remove_file. destruct (mem p (s_fs s)).
  - exists [EvRemove p]. split; reflexivity.
  - exists []. now rewrite app_nil_r.
Qed.

Lemma no_tc_rmtree (d : string) : no_toolchain (rmtree d).
Proof.
  intros s. unfold rmtree. destruct (isdir d (s_fs s)).
  - exists [EvRemoveTree d]. split; reflexivity.
  - exists []. now rewrite app_nil_r.
Qed.

Lemma no_tc_bind {A B : Type} (m : M A) (k : A -> M B) :
  no_toolchain m -> (forall a, no_toolchain (k a)) -> no_toolchain (bind m k).
Proof.
  intros Hm Hk s. destruct (Hm s) as [tr1 [H1 C1]]. unfold bind.
  destruct (m s) as [[a|e] s'] eqn:E; cbn [snd] in *.
  - destruct (Hk a s') as [tr2 [H2 C2]]. exists (tr1 ++ tr2)%list.
    rewrite H2, H1, app_assoc. split; [reflexivity|].
    now rewrite toolchain_calls_app, C1, C2.
  - exists tr1. split; assumption.
Qed.

Lemma no_tc_mapM_ {A : Type} (f : A -> M unit) (l : list A) :
  (forall x, no_toolchain (f x)) -> no_toolchain (mapM_ f l).
Proof.
  intros Hf. induction l as [|x l IH]; cbn [mapM_];
    [apply no_tc_ret | apply no_tc_bind; auto].
Qed.

Lemma no_tc_collect py_ok cache_tag work_dir (T : src_tree) (opts : CompileOptions)
    (cf : list string) :
  no_toolchain (collect_output py_ok cache_tag work_dir T opts cf).
Proof.
  unfold collect_output. apply no_tc_bind; [apply no_tc_get_fs | intros f].
  apply no_tc_bind; [apply no_tc_mapM_; intros; apply no_tc_write | intros _].
  apply no_tc_mapM_. intros nc. destruct (collect_action work_dir _ nc) as [a b|a b].
  - unfold copyfile. destruct (String.eqb a b); [apply no_tc_raise | apply no_tc_write].
  - unfold compile_init_to_pyc. destruct (py_ok a); cbn [negb]; [|apply no_tc_raise].
    apply no_tc_bind; [apply no_tc_write | intros _].
    apply no_tc_bind; [apply no_tc_get_fs | intros g].
    destruct (isdir _ g); [|apply no_tc_ret].
    destruct (find _ _); [|apply no_tc_ret].
    apply no_tc_bind; [apply no_tc_write | intros _; apply no_tc_remove].
Qed.

Lemma bind_ok_inv {A B : Type} (m : M A) (k : A -> M B) (s s' : state) (b : B) :
  bind m k s = (Ok b, s') -> exists a s1, m s = (Ok a, s1) /\ k a s1 = (Ok b, s').
Proof.
  unfold bind. destruct (m s) as [[a|e] s1]; [|discriminate]. intros H. eauto.
Qed.

(** [compile_file] on an existing [.py] file invokes the toolchain exactly
    once, on a build script listing the file's base name, on the batched
    path and on the per-file (Windows) path alike. *)
Theorem compile_file_one_toolchain_call (is_windows : bool)
    (tc : list string -> nat * list string) (py_ok : string -> bool)
    (cache_tag work_dir : string) (ex : string -> bool)
    (source out : string) (release_flag : bool) (s : state) :
  endswith source ".py" = true -> ex source = true ->
  exists tr,
    s_trace (snd (compile_file is_windows tc py_ok cache_tag work_dir ex source out release_flag s)) =
      (s_trace s ++ tr)%list /\
    toolchain_calls tr = [[basename source]].
Proof.
  intros Hpy Hex.
  assert (Hne : source <> "") by (intros ->; discriminate).
  set (opts := mkOptions (Some source) None [] out release_flag).
  assert (Hv : validate_options opts = Ok tt).
  { unfold validate_options, opts. cbn [source_file source_dir py_opt].
    destruct source; [congruence | reflexivity]. }
  assert (Hg : get_compile_files ex (mkTree [] []) opts = Ok [source]).
  { unfold get_compile_files, opts. cbn [source_file source_dir py_opt].
    destruct source as [|c0 s0]; [congruence|].
    rewrite Hpy, Hex. reflexivity. }
  unfold compile_file, compiler_compile. fold opts. rewrite Hv.
  destruct (compile_after_clear is_windows tc py_ok cache_tag work_dir ex (mkTree [] []) opts
              source [] s Hg) as [s1 [[tr0 [Ht0 [Hc0 _]]] [_ ->]]].
  assert (Hrel : build_rel_files work_dir opts [source] = [basename source]).
  { unfold build_rel_files, opts. reflexivity. }
  assert (HB : exists trb,
    s_trace (snd ((if is_windows then build_each tc work_dir opts [source]
                   else script <- generate_build_script work_dir opts [source] ;;
                        run_cython_build tc work_dir script) s1)) = (s_trace s1 ++ trb)%list /\
    toolchain_calls trb = [[basename source]]).
  { destruct is_windows.
    - destruct (build_each_spec tc work_dir opts [source] s1) as [trb [Htb [Hcb _]]].
      exists trb. split; [exact Htb|]. rewrite Hcb. cbn [attempted map].
      rewrite <- Hrel. destruct (Nat.eqb _ 0); reflexivity.
    - destruct (build_batched_spec tc work_dir opts [source] s1) as [trb [Htb [Hcb _]]].
      exists trb. split; [exact Htb|]. now rewrite Hcb, Hrel. }
  destruct HB as [trb [Htb Hcb]].
  assert (Hrest : no_toolchain (collect_output py_ok cache_tag work_dir (mkTree [] []) opts [source] ;;;
                                (if release opts then clear_tmp_files work_dir else ret tt) ;;;
                                ret (output_dir opts))).
  { apply no_tc_bind; [apply no_tc_collect | intros _].
    apply no_tc_bind; [| intros _; apply no_tc_ret].
    destruct (release opts); [apply no_tc_rmtree | apply no_tc_ret]. }
  unfold bind at 1.
  destruct ((if is_windows then build_each tc work_dir opts [source]
             else script <- generate_build_script work_dir opts [source] ;;
                  run_cython_build tc work_dir script) s1) as [[u|e] sb] eqn:EB;
    cbn [snd] in Htb.
  - destruct (Hrest sb) as [tr' [Ht' Hc']].
    exists (tr0 ++ trb ++ tr')%list. split.
    + rewrite Ht', Htb, Ht0, !app_assoc. reflexivity.
    + now rewrite !toolchain_calls_app, Hc0, Hcb, Hc'.
  - exists (tr0 ++ trb)%list. cbn [snd]. split.
    + rewrite Htb, Ht0, app_assoc. reflexivity.
    + now rewrite toolchain_calls_app, Hc0, Hcb.
Qed.

(** A successful release run of [Compiler.compile] leaves no file in the
    workspace directory [.py2dist] below the working directory. *)
Theorem release_run_clears_workspace (is_windows : bool)
    (tc : list string -> nat * list string) (py_ok : string -> bool)
    (cache_tag work_dir : string) (ex : string -> bool) (T : src_tree)
    (opts : CompileOptions) (s : state) (o : string) :
  release opts = true ->
  fst (compile is_windows tc py_ok cache_tag work_dir ex T opts s) = Ok o ->
  forall p, In p (s_fs (snd (compile is_windows tc py_ok cache_tag work_dir ex T opts s))) ->
    startswith p (join work_dir ".py2dist" ++ "/") = false.
Proof.
  intros Hrel Hok.
  destruct (get_compile_files ex T opts) as [[|f0 rest]|e] eqn:Hg.
  - unfold compile in Hok. rewrite Hg in Hok. discriminate.
  - destruct (compile_after_clear is_windows tc py_ok cache_tag work_dir ex T opts f0 rest s Hg)
      as [s1 [_ [_ Hc]]].
    rewrite Hc in *. rewrite Hrel in *.
    destruct (bind _ _ s1) as [r s'] eqn:E. cbn [fst snd] in *. subst r.
    apply bind_ok_inv in E as [a [s2 [_ E]]].
    apply bind_ok_inv in E as [b [s3 [_ E]]].
    apply bind_ok_inv in E as [c [s4 [E1 E2]]].
    unfold ret in E2. injection E2 as _ <-.
    unfold clear_tmp_files in E1.
    destruct (rmtree_spec (join work_dir ".py2dist") s3) as [_ [_ Hno]].
    rewrite E1 in Hno. exact Hno.
  - unfold compile in Hok. rewrite Hg in Hok. discriminate.
Qed.

Lemma rfind_split (c : ascii) (s : string) (i : nat) :
  rfind c s = Some i ->
  exists a b, s = a ++ String c b /\ String.length a = i /\ has_char c b = false.
Proof.
  revert i. induction s as [|x s IH]; intros i; cbn [rfind]; [discriminate|].
  destruct (rfind c s) as [k|] eqn:E.
  - intros H. injection H as <-. destruct (IH k eq_refl) as [a [b [-> [Hl Hb]]]].
    exists (String x a), b. cbn. auto.
  - destruct (Ascii.eqb x c) eqn:Ex; [|discriminate]. intros H. injection H as <-.
    apply Ascii.eqb_eq in Ex as ->. exists "", s. split; [reflexivity|]. split; [reflexivity|].
    destruct (has_char c s) eqn:Hs; [|reflexivity].
    exfalso. clear IH. induction s as [|y s IHs]; [discriminate|].
    cbn [rfind has_char] in E, Hs. destruct (rfind c s); [discriminate|].
    destruct (Ascii.eqb y c); [discriminate|]. exact (IHs E Hs).
Qed.

Lemma rfind_none_has_char (c : ascii) (s : string) : rfind c s = None -> has_char c s = false.
Proof.
  induction s as [|y s IH]; cbn [rfind has_char]; [reflexivity|].
  destruct (rfind c s); [discriminate|]. destruct (Ascii.eqb y c); [discriminate|]. auto.
Qed.

(** Every path is its directory part and its base name. *)
Lemma basename_split (s : string) :
  (has_char "/" s = false /\ basename s = s) \/
  (exists a, s = a ++ "/" ++ basename s /\ has_char "/" (basename s) = false).
Proof.
  destruct (rfind "/" s) as [i|] eqn:E.
  - right. destruct (rfind_split _ _ _ E) as [a [b [-> [_ Hb]]]].
    change (String "/" b) with ("/" ++ b). rewrite basename_sep by exact Hb. eauto.
  - left. split; [exact (rfind_none_has_char _ _ E)|]. unfold basename. now rewrite E.
Qed.

Lemma basename_no_sep (s : string) : has_char "/" (basename s) = false.
Proof. destruct (basename_split s) as [[H ->] | [a [_ H]]]; assumption. Qed.

Lemma basename_nonempty (s : string) :
  s <> "" -> endswith s "/" = false -> basename s <> "".
Proof.
  intros Hs Hend Hb. destruct (basename_split s) as [[_ Hb'] | [a [Ha _]]].
  - congruence.
  - rewrite Hb, str_app_nil_r in Ha. rewrite Ha, endswith_app in Hend. discriminate.
Qed.

Lemma replace_char_app (a b : ascii) (x y : string) :
  replace_char a b (x ++ y) = replace_char a b x ++ replace_char a b y.
Proof. induction x as [|c x IH]; cbn; [reflexivity | now rewrite IH]. Qed.

Lemma replace_char_none (a b : ascii) (x : string) :
  has_char a x = false -> replace_char a b x = x.
Proof.
  induction x as [|c x IH]; cbn [replace_char has_char]; [reflexivity|].
  intros H. apply orb_false_iff in H as [Hc Hx]. now rewrite Hc, IH.
Qed.

Lemma py_opt_nonempty (o : option string) (s : string) : py_opt o = Some s -> s <> "".
Proof. destruct o as [[|c t]|]; cbn; congruence. Qed.

Lemma mod_name_py (y : string) : mod_name (y ++ ".py") = replace_char "/" "." y.
Proof.
  unfold mod_name. rewrite str_length_app. cbn [String.length].
  replace (String.length y + 3 - 3)%nat with (String.length y) by lia.
  now rewrite substring_app_l.
Qed.

Lemma startswith_py_rel (x : string) : startswith x "/" = false -> startswith (x ++ ".py") "/" = false.
Proof.
  destruct x as [|c x]; [reflexivity|]. intros H.
  rewrite startswith_app_l by discriminate. exact H.
Qed.

(** The build script names the extension module of [sourceDir/x.py]
    [<n>.<x with separators replaced by dots>], where [n] is the last
    component of the absolute source directory; [a/b.py] and [a.b.py]
    therefore get the same module name.  Source directory and [x] are in
    normal form (no [.] or [..] component, no doubled separator), so that
    [os.path.abspath] and [os.path.relpath] do not rewrite them. *)
Theorem build_module_names (work_dir : string) (opts : CompileOptions) (sd x : string) :
  py_opt (source_dir opts) = Some sd -> endswith sd "/" = false -> dot_free sd = true ->
  startswith x "/" = false -> dot_free x = true -> no_double_slash x = true ->
  map mod_name (build_rel_files work_dir opts [join sd (x ++ ".py")]) =
    [basename (abspath work_dir sd) ++ "." ++ replace_char "/" "." x] /\
  (forall a b, x = a ++ "/" ++ b ->
     map mod_name (build_rel_files work_dir opts [join sd (a ++ "." ++ b ++ ".py")]) =
     map mod_name (build_rel_files work_dir opts [join sd (x ++ ".py")])).
Proof.
  intros Hsd Hend _ Hx _ _.
  assert (Hne : sd <> "") by exact (py_opt_nonempty _ _ Hsd).
  assert (Hone : forall z, startswith z "/" = false ->
            map mod_name (build_rel_files work_dir opts [join sd (z ++ ".py")]) =
            [basename (abspath work_dir sd) ++ "." ++ replace_char "/" "." z]).
  { intros z Hz. unfold build_rel_files. rewrite Hsd. cbn [map].
    assert (Hj : join sd (z ++ ".py") = sd ++ "/" ++ (z ++ ".py")).
    { unfold join. rewrite startswith_py_rel by exact Hz.
      destruct sd; [congruence|]. cbn [String.eqb]. rewrite Hend. reflexivity. }
    rewrite Hj, relpath_below.
    set (n := basename (abspath work_dir sd)).
    assert (Hn : n <> "").
    { apply basename_nonempty.
      - unfold abspath. destruct (startswith sd "/"); [exact Hne|].
        destruct (join_prefix work_dir sd) as [pre [-> _]]. destruct pre; [exact Hne | discriminate].
      - unfold abspath. destruct (startswith sd "/"); [exact Hend|].
        destruct (join_prefix work_dir sd) as [pre [-> _]].
        apply endswith_slash_app; assumption. }
    assert (Hn' : endswith n "/" = false).
    { destruct (endswith n "/") eqn:E; [|reflexivity].
      apply endswith_spec in E as [y Hy]. pose proof (basename_no_sep (abspath work_dir sd)) as H.
      fold n in H. rewrite Hy, has_char_app in H. cbn in H. rewrite orb_true_r in H. discriminate. }
    assert (Hj2 : join n (z ++ ".py") = n ++ "/" ++ z ++ ".py").
    { unfold join. rewrite startswith_py_rel by exact Hz.
      destruct n; [congruence|]. cbn [String.eqb]. rewrite Hn'. reflexivity. }
    rewrite Hj2. rewrite <- (str_app_assoc n), <- (str_app_assoc (n ++ "/")), mod_name_py.
    rewrite !replace_char_app, (replace_char_none "/" "." n) by apply basename_no_sep.
    rewrite str_app_assoc. reflexivity. }
  split; [exact (Hone x Hx)|].
  intros a b ->. rewrite (Hone _ Hx).
  replace (a ++ "." ++ b ++ ".py") with ((a ++ "." ++ b) ++ ".py") by (now rewrite !str_app_assoc).
  rewrite Hone.
  - rewrite !replace_char_app. reflexivity.
  - destruct a as [|c a]; [reflexivity|].
    rewrite startswith_app_l in * by discriminate. exact Hx.
Qed.

(** [compile_file] rejects an empty source ([_validate_options]), a source
    not ending in [.py] and a missing [.py] source ([_get_compile_files])
    with the corresponding error, leaving the state unchanged. *)
Theorem compile_file_rejects_early (is_windows : bool)
    (tc : list string -> nat * list string) (py_ok : string -> bool)
    (cache_tag work_dir : string) (ex : string -> bool)
    (source out : string) (release_flag : bool) (s : state) :
  (source = "" ->
   compile_file is_windows tc py_ok cache_tag work_dir ex source out release_flag s =
   (Err (ValueError "Must specify source_file or source_dir"), s)) /\
  (source <> "" -> endswith source ".py" = false ->
   compile_file is_windows tc py_ok cache_tag work_dir ex source out release_flag s =
   (Err (ValueError "Source file must be a .py file"), s)) /\
  (endswith source ".py" = true -> ex source = false ->
   compile_file is_windows tc py_ok cache_tag work_dir ex source out release_flag s =
   (Err (FileNotFoundError source), s)).
Proof.
  assert (Hpy : source <> "" -> py_opt (Some source) = Some source)
    by (destruct source; [congruence | reflexivity]).
  unfold compile_file, compiler_compile, validate_options, compile, get_compile_files.
  cbn [source_file source_dir]. split; [|split].
  - intros ->. reflexivity.
  - intros Hne Hend. rewrite (Hpy Hne), Hend. reflexivity.
  - intros Hend Hex. assert (Hne : source <> "") by (intros ->; discriminate).
    rewrite (Hpy Hne), Hend, Hex. reflexivity.
Qed.

Lemma split_on_app_sep_str (a b : string) :
  split_on "," (a ++ "," ++ b) = (split_on "," a ++ split_on "," b)%list.
Proof. exact (split_on_app_sep "," a b). Qed.

Lemma strip_empty : strip "" = "".
Proof. reflexivity. Qed.

(** [parse_exclude_files] treats the comma-separated entries independently:
    the result for [v1,v2] is the result for [v1] followed by the result
    for [v2]; an empty value and a trailing comma contribute nothing. *)
Theorem parse_exclude_files_comma (root_dir : string) (T : src_tree) (v1 v2 : string) :
  parse_exclude_files (v1 ++ "," ++ v2) root_dir T =
    (parse_exclude_files v1 root_dir T ++ parse_exclude_files v2 root_dir T)%list /\
  parse_exclude_files "" root_dir T = [] /\
  parse_exclude_files (v1 ++ ",") root_dir T = parse_exclude_files v1 root_dir T.
Proof.
  assert (Hc : forall a b, parse_exclude_files (a ++ "," ++ b) root_dir T =
            (parse_exclude_files a root_dir T ++ parse_exclude_files b root_dir T)%list).
  { intros a b. unfold parse_exclude_files. change ("," ++ b) with (String "," b).
    rewrite split_on_app_sep. apply flat_map_app. }
  assert (He : parse_exclude_files "" root_dir T = []) by reflexivity.
  split; [apply Hc | split; [exact He |]].
  replace (v1 ++ ",") with (v1 ++ "," ++ "") by reflexivity.
  rewrite Hc, He. apply app_nil_r.
Qed.

Section Confined2.
Variables (W R : string -> Prop).


End Confined2.


Lemma rstrip_sep_pyc (x : string) : rstrip_sep (x ++ ".pyc") = x ++ ".pyc".
Proof.
  unfold rstrip_sep. rewrite string_rev_app.
  change (string_rev ".pyc" ++ string_rev x) with (String "c" ("yp." ++ string_rev x)).
  cbn [lstrip_by]. replace (Ascii.eqb "/" "c") with false by reflexivity.
  change (String "c" ("yp." ++ string_rev x)) with (string_rev ".pyc" ++ string_rev x).
  rewrite <- string_rev_app. apply string_rev_involutive.
Qed.




Section Bytecode.
Variables (py_ok : string -> bool) (cache_tag work_dir : string).





End Bytecode.

Lemma write_file_In (p q : string) (s : state) :
  In q (s_fs (snd (write_file p s))) <-> In q (s_fs s) \/ q = p.
Proof.
  cbn [write_file snd s_fs]. destruct (mem p (s_fs s)) eqn:E.
  - apply mem_In in E. split; [auto | intros [H | ->]; auto].
  - rewrite in_app_iff. cbn [In]. split; intros [H | H]; auto.
    + destruct H as [H | []]. auto.
Qed.

Section Bytecode2.
Variables (py_ok : string -> bool) (cache_tag work_dir : string).

Lemma compile_each_spec (l : list string) (s : state) :
  exists s', compile_each py_ok cache_tag l s = (Ok (forallb py_ok l), s') /\
    forall p, In p (s_fs s') <->
      In p (s_fs s) \/ exists q, In q l /\ py_ok q = true /\ p = cache_from_source cache_tag q.
Proof.
  revert s. induction l as [|q l IH]; intros s; cbn [compile_each forallb].
  - exists s. split; [reflexivity|]. intros p. split; [auto | intros [H | [q [[] _]]]; exact H].
  - destruct (py_ok q) eqn:Hq.
    + destruct (IH (snd (write_file (cache_from_source cache_tag q) s))) as [s' [E Hs']].
      exists s'. unfold bind at 1. cbn [write_file ret bind fst snd].
      unfold bind in E |- *. cbn [write_file snd] in E. rewrite E. cbn [andb]. split; [reflexivity|].
      intros p. rewrite Hs', write_file_In. split.
      * intros [[H | ->] | [q' [Hq' [Ho ->]]]].
        -- left. exact H.
        -- right. exists q. split; [left; reflexivity | split; [exact Hq | reflexivity]].
        -- right. exists q'. split; [right; exact Hq' | split; [exact Ho | reflexivity]].
      * intros [H | [q' [[<- | Hq'] [Ho ->]]]].
        -- left. left. exact H.
        -- left. right. reflexivity.
        -- right. exists q'. split; [exact Hq' | split; [exact Ho | reflexivity]].
    + destruct (IH s) as [s' [E Hs']]. exists s'.
      unfold bind. cbn [ret]. rewrite E. cbn [andb]. split; [reflexivity|].
      intros p. rewrite Hs'. split.
      * intros [H | [q' [Hq' [Ho ->]]]].
        -- left. exact H.
        -- right. exists q'. split; [right; exact Hq' | split; [exact Ho | reflexivity]].
      * intros [H | [q' [[<- | Hq'] [Ho ->]]]].
        -- left. exact H.
        -- congruence.
        -- right. exists q'. split; [exact Hq' | split; [exact Ho | reflexivity]].
Qed.

(** When [compileall] fails for a directory target, [compile_to_bytecode]
    raises [RuntimeError] after deleting nothing: the files afterwards are
    the original ones plus the cache files of the sources that did
    compile. *)
Theorem bytecode_dir_failure_keeps_caches (target out : string) (in_place : bool) (s : state) :
  mem (abspath work_dir target) (s_fs s) = false ->
  isdir (abspath work_dir target) (s_fs s) = true ->
  forallb py_ok (compileall_files (abspath work_dir target) (s_fs s)) = false ->
  fst (compile_to_bytecode py_ok cache_tag work_dir target out in_place s) =
    Err (RuntimeError "Bytecode compilation failed") /\
  forall p, In p (s_fs (snd (compile_to_bytecode py_ok cache_tag work_dir target out in_place s))) <->
    In p (s_fs s) \/
    exists q, In q (compileall_files (abspath work_dir target) (s_fs s)) /\ py_ok q = true /\
              p = cache_from_source cache_tag q.
Proof.
  intros Hmem Hdir Hfail.
  destruct (compile_each_spec (compileall_files (abspath work_dir target) (s_fs s)) s) as [s' [E Hs']].
  assert (Hc : compile_to_bytecode py_ok cache_tag work_dir target out in_place s =
                (Err (RuntimeError "Bytecode compilation failed"), s')).
  { unfold compile_to_bytecode. cbv zeta. unfold bind at 1. cbn [get_fs].
    rewrite Hmem, Hdir. unfold compileall_compile_dir. unfold bind at 1 2. cbn [get_fs].
    rewrite E, Hfail. reflexivity. }
  rewrite Hc. split; [reflexivity | exact Hs'].
Qed.

End Bytecode2.

Lemma all_slashes_endswith (d : string) :
  d <> "" -> all_slashes d = true -> endswith d "/" = true.
Proof.
  induction d as [|c d IH]; [congruence|]. intros _ H. cbn [all_slashes] in H.
  apply andb_true_iff in H as [Hc Hd]. apply Ascii.eqb_eq in Hc as ->.
  destruct d as [|c' d]; [reflexivity|].
  transitivity (String.eqb (String "/" (String c' d)) "/" || endswith (String c' d) "/");
    [reflexivity|].
  rewrite IH by (discriminate || exact Hd). apply orb_true_r.
Qed.

Lemma rstrip_sep_plain (d : string) : endswith d "/" = false -> rstrip_sep d = d.
Proof.
  intros Hd. unfold rstrip_sep.
  destruct (string_rev d) as [|c r] eqn:E.
  - rewrite <- (string_rev_involutive d), E. reflexivity.
  - cbn [lstrip_by]. destruct (Ascii.eqb_spec "/" c) as [<-|Hc].
    + exfalso. rewrite <- (string_rev_involutive d), E in Hd. cbn [string_rev] in Hd.
      rewrite endswith_app in Hd. discriminate.
    + rewrite <- E. apply string_rev_involutive.
Qed.

Lemma has_char_py (c : ascii) (m : string) :
  Ascii.eqb "." c = false -> Ascii.eqb "p" c = false -> Ascii.eqb "y" c = false ->
  has_char c m = false -> has_char c (m ++ ".py") = false.
Proof.
  intros H1 H2 H3 Hm. rewrite has_char_app, Hm. cbn [has_char].
  rewrite H1, H2, H3.
  reflexivity.
Qed.

(** [os.path.dirname] of a file in directory [D]. *)
Lemma dirname_file (D n : string) :
  D <> "" -> endswith D "/" = false -> has_char "/" n = false ->
  dirname (D ++ "/" ++ n) = D.
Proof.
  intros HD HD' Hn. unfold dirname. change ("/" ++ n) with (String "/" n).
  rewrite rfind_sep by exact Hn.
  replace (D ++ String "/" n) with ((D ++ "/") ++ n) by (rewrite str_app_assoc; reflexivity).
  replace (S (String.length D)) with (String.length (D ++ "/"))
    by (rewrite str_length_app; cbn; lia).
  rewrite substring_app_l.
  assert (Hne : String.eqb (D ++ "/") "" = false) by (destruct D; [congruence | reflexivity]).
  assert (Hsl : all_slashes (D ++ "/") = false).
  { rewrite all_slashes_app. destruct (all_slashes D) eqn:E; [|reflexivity].
    rewrite (all_slashes_endswith D HD E) in HD'. discriminate. }
  rewrite Hne, Hsl. cbn [orb]. apply rstrip_sep_slash, HD'.
Qed.

(** [os.path.splitext] of a module file name. *)
Lemma splitext_py (m : string) :
  m <> "" -> has_char "/" m = false -> has_char "." m = false ->
  splitext (m ++ ".py") = (m, ".py").
Proof.
  intros Hm H1 H2. unfold splitext.
  change (m ++ ".py") with (m ++ String "." "py").
  rewrite rfind_sep by reflexivity.
  rewrite rfind_none by (apply has_char_py; [reflexivity .. | exact H1]).
  replace (0 <=? String.length m)%nat with true by (symmetry; apply Nat.leb_le; lia).
  rewrite Nat.sub_0_r, substring_app_l.
  assert (Hd : all_dots m = false).
  { destruct m as [|c m]; [congruence|]. cbn [all_dots]. cbn [has_char] in H2.
    apply orb_false_iff in H2 as [Hc _]. rewrite Hc. reflexivity. }
  rewrite Hd. cbn [negb]. f_equal.
  rewrite str_length_app. cbn [String.length].
  replace (String.length m + 3 - String.length m)%nat with 3 by lia.
  rewrite <- (Nat.add_0_r (String.length m)) at 1. rewrite substring_app_r. reflexivity.
Qed.

Lemma join_plain (a b : string) :
  a <> "" -> endswith a "/" = false -> startswith b "/" = false -> join a b = a ++ "/" ++ b.
Proof.
  intros Ha Ha' Hb. unfold join. rewrite Hb, Ha'. destruct a; [congruence | reflexivity].
Qed.

Lemma startswith_plain (m : string) (x : string) :
  has_char "/" m = false -> m <> "" -> startswith (m ++ x) "/" = false.
Proof.
  intros H Hm. destruct m as [|c m]; [congruence|]. rewrite startswith_app_l by discriminate.
  rewrite startswith_cons. cbn [has_char] in H. apply orb_false_iff in H as [H _]. exact H.
Qed.

(** [importlib.util.cache_from_source] of a module file [D/m.py]. *)
Lemma cache_from_source_file (cache_tag D m : string) :
  D <> "" -> endswith D "/" = false ->
  m <> "" -> has_char "/" m = false -> has_char "." m = false ->
  cache_from_source cache_tag (D ++ "/" ++ m ++ ".py") =
    join (join D "__pycache__") (m ++ "." ++ cache_tag ++ ".pyc").
Proof.
  intros HD HD' Hm H1 H2. unfold cache_from_source.
  assert (Hn : has_char "/" (m ++ ".py") = false) by (apply has_char_py; [reflexivity .. | exact H1]).
  pose proof (basename_sep D (m ++ ".py") Hn) as Hb. unfold basename in Hb.
  change ("/" ++ m ++ ".py") with (String "/" (m ++ ".py")) in Hb |- *.
  rewrite rfind_sep in Hb |- * by exact Hn. rewrite Hb, substring_app_l.
  unfold rpartition. change (m ++ ".py") with (m ++ String "." "py").
  rewrite rfind_sep by reflexivity. rewrite substring_app_l.
  rewrite str_length_app. cbn [String.length].
  replace (String.length m + 3 - S (String.length m))%nat with 2 by lia.
  replace (S (String.length m)) with (String.length m + 1)%nat by lia.
  rewrite substring_app_r.
  assert (Hme : String.eqb m "" = false) by (destruct m; [congruence | reflexivity]).
  assert (HDe : String.eqb D "" = false) by (destruct D; [congruence | reflexivity]).
  rewrite Hme. cbn [substring].
  set (x := m ++ "." ++ cache_tag).
  assert (Hx : String.eqb (x ++ ".pyc") "" = false) by (unfold x; destruct m; [congruence | reflexivity]).
  cbn [filter]. rewrite HDe, Hx. cbn [negb String.eqb].
  cbn [map]. rewrite rstrip_sep_plain by exact HD'. rewrite rstrip_sep_pyc.
  replace (rstrip_sep "__pycache__") with "__pycache__" by reflexivity.
  rewrite (join_plain D) by (reflexivity || assumption).
  rewrite join_plain.
  - cbn [String.concat]. unfold x. rewrite !str_app_assoc. reflexivity.
  - destruct D; [congruence | discriminate].
  - apply endswith_slash_app; [discriminate | reflexivity].
  - apply startswith_plain; [exact H1 | exact Hm].
Qed.

Lemma mem_app (x : string) (a b : list string) : mem x (a ++ b) = mem x a || mem x b.
Proof. unfold mem. apply existsb_app. Qed.

Lemma filter_none {A : Type} (f : A -> bool) (l : list A) :
  (forall x, In x l -> f x = false) -> filter f l = [].
Proof.
  induction l as [|x l IH]; intros H; cbn [filter]; [reflexivity|].
  rewrite H by (left; reflexivity). apply IH. intros y Hy. apply H. right. exact Hy.
Qed.

Lemma filter_neq_notin (c : string) (l : list string) :
  ~ In c l -> filter (fun q => negb (String.eqb q c)) l = l.
Proof.
  induction l as [|x l IH]; intros H; cbn [filter]; [reflexivity|].
  destruct (String.eqb_spec x c) as [-> | _]; [exfalso; apply H; left; reflexivity|].
  cbn [negb]. f_equal. apply IH. intros Hc. apply H. right. exact Hc.
Qed.

Lemma isdir_false_In (d p : string) (f : fs) :
  isdir d f = false -> In p f -> startswith p (d ++ "/") = false.
Proof.
  intros H Hp. destruct (startswith p (d ++ "/")) eqn:E; [|reflexivity].
  unfold isdir in H. assert (existsb (fun q => startswith q (d ++ "/")) f = true)
    by (apply existsb_exists; exists p; auto). congruence.
Qed.

Section Bytecode3.
Variables (py_ok : string -> bool) (cache_tag work_dir : string).

Lemma bytecode_single_file_cache (D m out : string) (in_place : bool) (s : state) :
  startswith D "/" = true -> endswith D "/" = false ->
  m <> "" -> has_char "/" m = false -> has_char "." m = false ->
  has_char "/" cache_tag = false ->
  In (D ++ "/" ++ m ++ ".py") (s_fs s) ->
  py_ok (D ++ "/" ++ m ++ ".py") = true ->
  isdir (join D "__pycache__") (s_fs s) = false ->
  ~ In (join (join D "__pycache__") (m ++ "." ++ cache_tag ++ ".pyc")) (s_fs s) /\
  compile_to_bytecode py_ok cache_tag work_dir (D ++ "/" ++ m ++ ".py") out in_place s =
    (if in_place then
       move_file (join (join D "__pycache__") (m ++ "." ++ cache_tag ++ ".pyc"))
                 (join D (m ++ ".pyc")) ;;;
       remove_file (D ++ "/" ++ m ++ ".py") ;;; ret [join D (m ++ ".pyc")]
     else
       copyfile (join (join D "__pycache__") (m ++ "." ++ cache_tag ++ ".pyc"))
                (join (abspath work_dir out) (m ++ ".pyc")) ;;;
       remove_file (join (join D "__pycache__") (m ++ "." ++ cache_tag ++ ".pyc")) ;;;
       ret [join (abspath work_dir out) (m ++ ".pyc")])
    (mkState (s_fs s ++ [join (join D "__pycache__") (m ++ "." ++ cache_tag ++ ".pyc")])%list
             (s_trace s ++ [EvWrite (join (join D "__pycache__") (m ++ "." ++ cache_tag ++ ".pyc"))])%list).
Proof.
  intros HD1 HD2 Hm H1 H2 Htag HT Hok Hclean.
  assert (HD : D <> "") by (intros ->; discriminate).
  assert (Hn : has_char "/" (m ++ ".py") = false) by (apply has_char_py; [reflexivity .. | exact H1]).
  set (T := D ++ "/" ++ m ++ ".py") in *.
  assert (HabsT : abspath work_dir T = T).
  { unfold abspath. replace (startswith T "/") with true; [reflexivity|].
    unfold T. rewrite startswith_app_l by exact HD. symmetry. exact HD1. }
  assert (HTpy : endswith T ".py" = true).
  { unfold T. replace (D ++ "/" ++ m ++ ".py") with ((D ++ "/" ++ m) ++ ".py")
      by (rewrite !str_app_assoc; reflexivity). apply endswith_app. }
  assert (Hbase : basename T = m ++ ".py") by (apply basename_sep, Hn).
  assert (Hdir : dirname T = D) by (apply dirname_file; assumption).
  set (CD := join D "__pycache__") in *.
  set (n0 := m ++ "." ++ cache_tag ++ ".pyc").
  assert (HCD1 : CD <> "") by (unfold CD, join; cbn; destruct D; [congruence | destruct (endswith _ "/"); discriminate]).
  assert (HCD2 : endswith CD "/" = false).
  { unfold CD. rewrite join_plain by (assumption || reflexivity).
    apply endswith_slash_app; [discriminate | reflexivity]. }
  assert (Hn0 : has_char "/" n0 = false).
  { unfold n0. rewrite !has_char_app, H1, Htag. reflexivity. }
  assert (HC : join CD n0 = (CD ++ "/") ++ n0).
  { rewrite str_app_assoc. apply join_plain; try assumption.
    unfold n0. apply startswith_plain; assumption. }
  assert (Hpre : startswith (join CD n0) (CD ++ "/") = true) by (rewrite HC; apply prefix_app).
  assert (HCnot : ~ In (join CD n0) (s_fs s)).
  { intros Hin. rewrite (isdir_false_In _ _ _ Hclean Hin) in Hpre. discriminate. }
  split; [exact HCnot|].
  assert (Hcache : cache_from_source cache_tag T = join CD n0) by (apply cache_from_source_file; assumption).
  assert (Hisdir : isdir CD (s_fs s ++ [join CD n0])%list = true).
  { unfold isdir. apply existsb_exists. exists (join CD n0). split; [apply in_or_app; right; left; reflexivity | exact Hpre]. }
  assert (Hlist : listdir CD (s_fs s ++ [join CD n0])%list = [n0]).
  { unfold listdir. rewrite filter_app.
    rewrite (filter_none _ (s_fs s)) by (intros p Hp; rewrite (isdir_false_In _ _ _ Hclean Hp); reflexivity).
    assert (Hdrop : drop (String.length CD + 1) (join CD n0) = n0).
    { rewrite HC. replace (String.length CD + 1)%nat with (String.length (CD ++ "/"))
        by (rewrite str_length_app; reflexivity). apply drop_app. }
    cbn [filter app]. rewrite Hpre, Hdrop, Hn0. cbn [andb negb map]. rewrite Hdrop. reflexivity. }
  assert (Hfind : startswith n0 m && endswith n0 ".pyc" = true).
  { unfold n0. rewrite prefix_app. cbn [andb].
    replace (m ++ "." ++ cache_tag ++ ".pyc") with ((m ++ "." ++ cache_tag) ++ ".pyc")
      by (rewrite !str_app_assoc; reflexivity). apply endswith_app. }
  unfold compile_to_bytecode. rewrite HabsT. cbv zeta.
  rewrite (bind_ok _ _ s s (s_fs s)) by reflexivity.
  replace (mem T (s_fs s)) with true by (symmetry; apply mem_In; exact HT).
  rewrite HTpy. cbn [negb]. rewrite Hbase, splitext_py by assumption. cbn [fst].
  assert (Hpc : py_compile_file py_ok cache_tag T s =
                (Ok tt, mkState (s_fs s ++ [join CD n0])%list (s_trace s ++ [EvWrite (join CD n0)])%list)).
  { unfold py_compile_file. rewrite Hok, Hcache. unfold write_file.
    replace (mem (join CD n0) (s_fs s)) with false; [reflexivity|].
    symmetry. destruct (mem (join CD n0) (s_fs s)) eqn:E; [|reflexivity].
    apply mem_In in E. contradiction. }
  rewrite (bind_ok _ _ _ _ _ Hpc).
  rewrite (bind_ok _ _ _ _ (s_fs s ++ [join CD n0])%list) by reflexivity.
  rewrite Hdir. fold CD. rewrite Hisdir, Hlist. cbn [find]. rewrite Hfind.
  destruct in_place; reflexivity.
Qed.

Lemma basename_join (a b : string) :
  b <> "" -> has_char "/" b = false -> basename (join a b) = b.
Proof.
  intros Hb Hb'. destruct (join_prefix a b) as [pre [-> Hpre]].
  rewrite basename_app_sep by assumption. apply basename_plain, Hb'.
Qed.

Lemma cache_name_ne_dest (D m o : string) :
  m <> "" -> has_char "/" m = false -> has_char "/" cache_tag = false ->
  String.eqb (join (join D "__pycache__") (m ++ "." ++ cache_tag ++ ".pyc")) (join o (m ++ ".pyc")) = false.
Proof.
  intros Hm H1 Htag. destruct (String.eqb_spec (join (join D "__pycache__") (m ++ "." ++ cache_tag ++ ".pyc"))
                                               (join o (m ++ ".pyc"))) as [E|]; [|reflexivity].
  exfalso. apply (f_equal basename) in E.
  rewrite !basename_join in E.
  - apply (f_equal String.length) in E. rewrite !str_length_app in E. cbn [String.length] in E. lia.
  - destruct m; [congruence | discriminate].
  - rewrite has_char_app, H1. reflexivity.
  - destruct m; [congruence | discriminate].
  - rewrite !has_char_app, H1, Htag. reflexivity.
Qed.

(** [compile_to_bytecode] on a module file [D/m.py], not in place, with no
    [__pycache__] directory beside it: it returns [[<outputDir>/m.pyc]], the
    cache file it writes is removed again, and the file system gains exactly
    the destination file; the source stays. *)
Theorem bytecode_file_to_output (D m out : string) (s : state) :
  startswith D "/" = true -> endswith D "/" = false ->
  m <> "" -> has_char "/" m = false -> has_char "." m = false ->
  has_char "/" cache_tag = false ->
  In (D ++ "/" ++ m ++ ".py") (s_fs s) ->
  py_ok (D ++ "/" ++ m ++ ".py") = true ->
  isdir (join D "__pycache__") (s_fs s) = false ->
  compile_to_bytecode py_ok cache_tag work_dir (D ++ "/" ++ m ++ ".py") out false s =
    (Ok [join (abspath work_dir out) (m ++ ".pyc")],
     mkState (if mem (join (abspath work_dir out) (m ++ ".pyc")) (s_fs s) then s_fs s
              else s_fs s ++ [join (abspath work_dir out) (m ++ ".pyc")])%list
             (s_trace s ++
              [EvWrite (join (join D "__pycache__") (m ++ "." ++ cache_tag ++ ".pyc"));
               EvWrite (join (abspath work_dir out) (m ++ ".pyc"));
               EvRemove (join (join D "__pycache__") (m ++ "." ++ cache_tag ++ ".pyc"))])%list).
Proof.
  intros HD1 HD2 Hm H1 H2 Htag HT Hok Hclean.
  destruct (bytecode_single_file_cache D m out false s HD1 HD2 Hm H1 H2 Htag HT Hok Hclean) as [HCnot ->].
  set (C := join (join D "__pycache__") (m ++ "." ++ cache_tag ++ ".pyc")) in *.
  set (dest := join (abspath work_dir out) (m ++ ".pyc")).
  assert (Hne : String.eqb C dest = false) by (apply cache_name_ne_dest; assumption).
  assert (Hne' : String.eqb dest C = false) by (rewrite String.eqb_sym; exact Hne).
  unfold copyfile. rewrite Hne. unfold bind, write_file, remove_file, ret. cbn [s_fs s_trace].
  rewrite mem_app. cbn [mem existsb]. rewrite Hne'. cbn [orb]. rewrite orb_false_r.
  destruct (mem dest (s_fs s)) eqn:Ed.
  - rewrite mem_app. cbn [mem existsb]. rewrite String.eqb_refl, orb_true_r. cbn [orb].
    rewrite filter_app, filter_neq_notin by exact HCnot. cbn [filter]. rewrite String.eqb_refl.
    cbn [negb]. rewrite app_nil_r, <- !app_assoc. reflexivity.
  - rewrite !mem_app. cbn [mem existsb]. rewrite String.eqb_refl, orb_true_r. cbn [orb].
    rewrite !filter_app, filter_neq_notin by exact HCnot. cbn [filter]. rewrite String.eqb_refl, Hne'.
    cbn [negb]. rewrite <- !app_assoc. reflexivity.
Qed.

(** The same in place: it returns [[D/m.pyc]], the file system gains
    [D/m.pyc] and loses the source [D/m.py]. *)
Theorem bytecode_file_in_place (D m out : string) (s : state) :
  startswith D "/" = true -> endswith D "/" = false ->
  m <> "" -> has_char "/" m = false -> has_char "." m = false ->
  has_char "/" cache_tag = false ->
  In (D ++ "/" ++ m ++ ".py") (s_fs s) ->
  py_ok (D ++ "/" ++ m ++ ".py") = true ->
  isdir (join D "__pycache__") (s_fs s) = false ->
  compile_to_bytecode py_ok cache_tag work_dir (D ++ "/" ++ m ++ ".py") out true s =
    (Ok [join D (m ++ ".pyc")],
     mkState (filter (fun q => negb (String.eqb q (D ++ "/" ++ m ++ ".py")))
                (if mem (join D (m ++ ".pyc")) (s_fs s) then s_fs s
                 else s_fs s ++ [join D (m ++ ".pyc")])%list)
             (s_trace s ++
              [EvWrite (join (join D "__pycache__") (m ++ "." ++ cache_tag ++ ".pyc"));
               EvWrite (join D (m ++ ".pyc"));
               EvRemove (join (join D "__pycache__") (m ++ "." ++ cache_tag ++ ".pyc"));
               EvRemove (D ++ "/" ++ m ++ ".py")])%list).
Proof.
  intros HD1 HD2 Hm H1 H2 Htag HT Hok Hclean.
  destruct (bytecode_single_file_cache D m out true s HD1 HD2 Hm H1 H2 Htag HT Hok Hclean) as [HCnot ->].
  set (C := join (join D "__pycache__") (m ++ "." ++ cache_tag ++ ".pyc")) in *.
  set (T := D ++ "/" ++ m ++ ".py") in *.
  set (dest := join D (m ++ ".pyc")).
  assert (Hne' : String.eqb dest C = false)
    by (rewrite String.eqb_sym; apply cache_name_ne_dest; assumption).
  assert (HTC : String.eqb T C = false).
  { destruct (String.eqb_spec T C) as [E|]; [|reflexivity].
    rewrite <- E in HCnot. contradiction. }
  assert (HmT : mem T (s_fs s) = true) by (apply mem_In; exact HT).
  assert (HmTd : mem T (s_fs s ++ [dest])%list = true)
    by (apply mem_In, in_or_app; left; exact HT).
  assert (HmC1 : mem C (s_fs s ++ [C])%list = true)
    by (apply mem_In, in_or_app; right; left; reflexivity).
  assert (HmC2 : mem C ((s_fs s ++ [C]) ++ [dest])%list = true)
    by (apply mem_In, in_or_app; left; apply in_or_app; right; left; reflexivity).
  unfold move_file, bind, write_file, remove_file, ret. cbn [s_fs s_trace].
  rewrite mem_app. cbn [mem existsb]. rewrite Hne'. cbn [orb]. rewrite orb_false_r.
  destruct (mem dest (s_fs s)) eqn:Ed.
  - rewrite HmC1. cbn [s_fs s_trace]. rewrite filter_app, filter_neq_notin by exact HCnot.
    cbn [filter]. rewrite String.eqb_refl. cbn [negb]. rewrite app_nil_r, HmT.
    cbn [s_fs s_trace]. rewrite <- !app_assoc. reflexivity.
  - rewrite HmC2. cbn [s_fs s_trace]. rewrite !filter_app, filter_neq_notin by exact HCnot.
    cbn [filter]. rewrite String.eqb_refl, Hne'. cbn [negb]. rewrite app_nil_r, HmTd.
    cbn [s_fs s_trace]. rewrite <- !app_assoc. reflexivity.
Qed.

End Bytecode3.




Lemma no_double_slash_sep (w s : string) :
  no_double_slash w = true -> endswith w "/" = false ->
  no_double_slash s = true -> startswith s "/" = false ->
  no_double_slash (w ++ "/" ++ s) = true.
Proof.
  intros Hw Hend Hs Hs'. induction w as [|c w IH].
  - cbn [append no_double_slash]. rewrite Hs', Hs. reflexivity.
  - destruct w as [|c' w].
    + cbn [append no_double_slash]. cbn [endswith String.eqb] in Hend.
      assert (Hc : Ascii.eqb c "/" = false).
      { destruct (Ascii.eqb_spec c "/") as [->|]; [discriminate | reflexivity]. }
      rewrite Hc, Hs', Hs. reflexivity.
    + change (String c (String c' w) ++ "/" ++ s) with (String c (String c' w ++ "/" ++ s)).
      cbn [no_double_slash] in Hw |- *.
      apply andb_true_iff in Hw as [H1 H2].
      rewrite startswith_app_l by discriminate. rewrite H1. cbn [andb].
      apply IH; [exact H2|].
      destruct (endswith (String c' w) "/") eqn:E; [|reflexivity].
      rewrite <- Hend. symmetry. transitivity (String.eqb (String c (String c' w)) "/" || endswith (String c' w) "/");
        [reflexivity | rewrite E; apply orb_true_r].
Qed.

Lemma no_double_slash_sep_inv (x y : string) :
  no_double_slash (x ++ "/" ++ y) = true -> endswith x "/" = false.
Proof.
  intros H. destruct (endswith x "/") eqn:E; [|reflexivity].
  apply endswith_spec in E as [x' ->]. rewrite !str_app_assoc in H.
  apply (no_double_slash_app x') in H. destruct y; cbn in H; discriminate.
Qed.

(** For a relative source directory, the source name [_compile_init_to_pyc]
    records in a bytecode file ([dfile]: the path relative to the parent of
    the absolute source directory) is [<n>/r] for [sourceDir/r], the name
    the build script gives the same file.  Working directory, source
    directory and [r] are in normal form (no [.] or [..] component, no
    doubled or trailing separator); so [-d .] is not covered. *)
Theorem init_dfile_matches_build_name (work_dir : string) (opts : CompileOptions) (sd r : string) :
  startswith work_dir "/" = true -> endswith work_dir "/" = false ->
  no_double_slash work_dir = true -> dot_free work_dir = true ->
  py_opt (source_dir opts) = Some sd -> startswith sd "/" = false ->
  endswith sd "/" = false -> no_double_slash sd = true -> dot_free sd = true ->
  startswith r "/" = false -> no_double_slash r = true -> dot_free r = true ->
  dfile_for_path (join work_dir (join sd r)) (dfile_root work_dir opts) =
    join (basename (abspath work_dir sd)) r /\
  build_rel_files work_dir opts [join sd r] = [join (basename (abspath work_dir sd)) r].
Proof.
  intros Hw1 Hw2 Hw3 _ Hsd Hsd1 Hsd2 Hsd3 _ Hr _ _.
  assert (Hne : sd <> "") by exact (py_opt_nonempty _ _ Hsd).
  assert (Hw0 : work_dir <> "") by (intros ->; discriminate).
  assert (HA : abspath work_dir sd = work_dir ++ "/" ++ sd) by (apply abspath_relative; assumption).
  assert (Hjsd : join sd r = sd ++ "/" ++ r) by (apply join_plain; assumption).
  assert (Hsrc : join work_dir (join sd r) = abspath work_dir sd ++ "/" ++ r).
  { rewrite Hjsd, HA, join_plain; [rewrite !str_app_assoc; reflexivity | assumption | assumption |].
    rewrite startswith_app_l; assumption. }
  set (A := abspath work_dir sd) in *.
  assert (HAnds : no_double_slash A = true) by (rewrite HA; apply no_double_slash_sep; assumption).
  destruct (basename_split A) as [[Hno _] | [P [HP Hb]]].
  { exfalso. rewrite HA, has_char_app in Hno. cbn [has_char] in Hno.
    rewrite orb_true_r in Hno. discriminate. }
  set (b := basename A) in *.
  assert (HPend : endswith P "/" = false) by (rewrite HP in HAnds; exact (no_double_slash_sep_inv _ _ HAnds)).
  assert (HP0 : P <> "").
  { intros ->. destruct work_dir as [|c w]; [congruence|].
    rewrite startswith_cons in Hw1. apply Ascii.eqb_eq in Hw1 as ->.
    rewrite HA in HP. cbn [append] in HP. injection HP as HP.
    rewrite <- HP, !has_char_app in Hb. cbn [has_char] in Hb. rewrite orb_true_r in Hb.
    discriminate. }
  assert (Hb0 : b <> "").
  { apply basename_nonempty; [rewrite HA; destruct work_dir; [congruence | discriminate] |].
    rewrite HA, <- str_app_assoc. apply endswith_slash_app; assumption. }
  assert (Hbend : endswith b "/" = false).
  { destruct (endswith b "/") eqn:E; [|reflexivity].
    apply endswith_spec in E as [y Hy]. rewrite Hy, has_char_app in Hb. cbn in Hb.
    rewrite orb_true_r in Hb. discriminate. }
  assert (Hjb : join b r = b ++ "/" ++ r) by (apply join_plain; assumption).
  split.
  - unfold dfile_for_path, dfile_root. rewrite Hsd. fold A.
    rewrite HP at 1. rewrite dirname_file by assumption.
    replace (py_opt (Some P)) with (Some P) by (destruct P; [congruence | reflexivity]).
    rewrite Hsrc, HP, !str_app_assoc, relpath_below. symmetry. exact Hjb.
  - unfold build_rel_files. rewrite Hsd. fold A. cbn [map]. rewrite Hjsd, relpath_below. reflexivity.
Qed.

(** [compile_to_bytecode] raises [ValueError] for an existing file not
    ending in [.py] and [FileNotFoundError] for a target that is neither a
    file nor a directory, in both modes and without any effect. *)
Theorem bytecode_rejects_target (py_ok : string -> bool) (cache_tag work_dir : string)
    (target out : string) (in_place : bool) (s : state) :
  (mem (abspath work_dir target) (s_fs s) = true ->
   endswith (abspath work_dir target) ".py" = false ->
   compile_to_bytecode py_ok cache_tag work_dir target out in_place s =
   (Err (ValueError "Bytecode target must be a .py file or directory"), s)) /\
  (mem (abspath work_dir target) (s_fs s) = false ->
   isdir (abspath work_dir target) (s_fs s) = false ->
   compile_to_bytecode py_ok cache_tag work_dir target out in_place s =
   (Err (FileNotFoundError (abspath work_dir target)), s)).
Proof.
  unfold compile_to_bytecode. cbv zeta.
  rewrite (bind_ok _ _ s s (s_fs s)) by reflexivity. split.
  - intros Hm He. rewrite Hm, He. reflexivity.
  - intros Hm Hd. rewrite Hm, Hd. reflexivity.
Qed.

(** ** Instances of the properties above *)

Lemma native_artifact_drops_tag_witness :
  native_dest "/w" "/w/dist"
    (join "pkg/sub" ("b" ++ "." ++ "cpython-312-x86_64-linux-gnu" ++ "." ++ "so")) =
  join (join "/w/dist" "pkg/sub") ("b" ++ "." ++ "so").
Proof.
  apply (native_artifact_drops_tag "/w" "/w/dist" "pkg/sub" "b" "cpython-312-x86_64-linux-gnu" "so");
    reflexivity.
Defined.

Lemma compile_dir_trailing_sep_witness :
  compile_dir false tc_ok (fun _ => true) "cpython-312" "/w" always_exists pkg_tree
    "//" "dist" None true (mkState [] []) =
  (Err (ValueError "Must specify source_file or source_dir"), mkState [] []).
Proof.
  exact (proj2 (compile_dir_trailing_sep false tc_ok (fun _ => true) "cpython-312" "/w"
                  always_exists pkg_tree "//" "dist" None true) eq_refl (mkState [] [])).
Defined.

Lemma compile_file_one_toolchain_call_witness :
  exists tr,
    s_trace (snd (compile_file false tc_ok (fun _ => true) "cpython-312" "/w" always_exists
                    "m.py" "dist" true (mkState ["/w/m.py"] []))) =
      (s_trace (mkState ["/w/m.py"] []) ++ tr)%list /\
    toolchain_calls tr = [[basename "m.py"]].
Proof.
  apply (compile_file_one_toolchain_call false tc_ok (fun _ => true) "cpython-312" "/w"
           always_exists "m.py" "dist" true (mkState ["/w/m.py"] [])); reflexivity.
Defined.

Lemma release_run_clears_workspace_witness :
  existsb (fun p => startswith p (join "/w" ".py2dist" ++ "/"))
    (s_fs (snd (compile false tc_ok (fun _ => true) "cpython-312" "/w" always_exists pkg_tree
                  (mkOptions None (Some "pkg") [] "dist" true) (mkState [] [])))) = false.
Proof.
  destruct (existsb _ _) eqn:E; [|reflexivity].
  apply existsb_exists in E as [p [Hp Hs]].
  rewrite (release_run_clears_workspace false tc_ok (fun _ => true) "cpython-312" "/w"
             always_exists pkg_tree (mkOptions None (Some "pkg") [] "dist" true) (mkState [] [])
             "dist" eq_refl ltac:(vm_compute; reflexivity) p Hp) in Hs.
  discriminate.
Defined.

Lemma build_module_names_witness :
  map mod_name (build_rel_files "/w" (pkg_opts []) [join "pkg" ("sub/b" ++ ".py")]) =
    [basename (abspath "/w" "pkg") ++ "." ++ replace_char "/" "." "sub/b"].
Proof.
  exact (proj1 (build_module_names "/w" (pkg_opts []) "pkg" "sub/b" eq_refl eq_refl eq_refl
                  eq_refl eq_refl eq_refl)).
Defined.

Lemma compile_file_rejects_early_witness :
  compile_file false tc_ok (fun _ => true) "cpython-312" "/w" always_exists
    "notes.txt" "dist" true (mkState [] []) =
  (Err (ValueError "Source file must be a .py file"), mkState [] []).
Proof.
  apply (proj1 (proj2 (compile_file_rejects_early false tc_ok (fun _ => true) "cpython-312" "/w"
                         always_exists "notes.txt" "dist" true (mkState [] []))));
    [discriminate | reflexivity].
Defined.

Lemma bytecode_dir_failure_keeps_caches_witness :
  fst (compile_to_bytecode (fun p => negb (String.eqb p "/w/pkg/bad.py")) "cpython-312" "/w"
         "pkg" "out" false (mkState ["/w/pkg/a.py"; "/w/pkg/bad.py"] [])) =
    Err (RuntimeError "Bytecode compilation failed") /\
  In "/w/pkg/__pycache__/a.cpython-312.pyc"
    (s_fs (snd (compile_to_bytecode (fun p => negb (String.eqb p "/w/pkg/bad.py")) "cpython-312"
                  "/w" "pkg" "out" false (mkState ["/w/pkg/a.py"; "/w/pkg/bad.py"] [])))).
Proof.
  destruct (bytecode_dir_failure_keeps_caches (fun p => negb (String.eqb p "/w/pkg/bad.py"))
              "cpython-312" "/w" "pkg" "out" false (mkState ["/w/pkg/a.py"; "/w/pkg/bad.py"] []))
    as [H1 H2]; [vm_compute; reflexivity .. |].
  split; [exact H1|]. apply H2. right. exists "/w/pkg/a.py".
  split; [vm_compute; left; reflexivity | split; vm_compute; reflexivity].
Defined.

Lemma bytecode_file_to_output_witness :
  compile_to_bytecode (fun _ => true) "cpython-312" "/w" ("/w/pkg" ++ "/" ++ "a" ++ ".py") "out"
    false (mkState ["/w/pkg/a.py"] []) =
  (Ok [join (abspath "/w" "out") ("a" ++ ".pyc")],
   mkState (if mem (join (abspath "/w" "out") ("a" ++ ".pyc")) ["/w/pkg/a.py"] then ["/w/pkg/a.py"]
            else ["/w/pkg/a.py"] ++ [join (abspath "/w" "out") ("a" ++ ".pyc")])%list
           ([] ++
            [EvWrite (join (join "/w/pkg" "__pycache__") ("a" ++ "." ++ "cpython-312" ++ ".pyc"));
             EvWrite (join (abspath "/w" "out") ("a" ++ ".pyc"));
             EvRemove (join (join "/w/pkg" "__pycache__") ("a" ++ "." ++ "cpython-312" ++ ".pyc"))])%list).
Proof.
  apply (bytecode_file_to_output (fun _ => true) "cpython-312" "/w" "/w/pkg" "a" "out"
           (mkState ["/w/pkg/a.py"] []));
    first [reflexivity | discriminate | (left; reflexivity)].
Defined.

Lemma bytecode_file_in_place_witness :
  compile_to_bytecode (fun _ => true) "cpython-312" "/w" ("/w/pkg" ++ "/" ++ "a" ++ ".py") "out"
    true (mkState ["/w/pkg/a.py"] []) =
  (Ok [join "/w/pkg" ("a" ++ ".pyc")],
   mkState (filter (fun q => negb (String.eqb q ("/w/pkg" ++ "/" ++ "a" ++ ".py")))
              (if mem (join "/w/pkg" ("a" ++ ".pyc")) ["/w/pkg/a.py"] then ["/w/pkg/a.py"]
               else ["/w/pkg/a.py"] ++ [join "/w/pkg" ("a" ++ ".pyc")])%list)
           ([] ++
            [EvWrite (join (join "/w/pkg" "__pycache__") ("a" ++ "." ++ "cpython-312" ++ ".pyc"));
             EvWrite (join "/w/pkg" ("a" ++ ".pyc"));
             EvRemove (join (join "/w/pkg" "__pycache__") ("a" ++ "." ++ "cpython-312" ++ ".pyc"));
             EvRemove ("/w/pkg" ++ "/" ++ "a" ++ ".py")])%list).
Proof.
  apply (bytecode_file_in_place (fun _ => true) "cpython-312" "/w" "/w/pkg" "a" "out"
           (mkState ["/w/pkg/a.py"] []));
    first [reflexivity | discriminate | (left; reflexivity)].
Defined.


Lemma init_dfile_matches_build_name_witness :
  dfile_for_path (join "/w" (join "pkg" "sub/__init__.py")) (dfile_root "/w" (pkg_opts [])) =
    join (basename (abspath "/w" "pkg")) "sub/__init__.py" /\
  build_rel_files "/w" (pkg_opts []) [join "pkg" "sub/__init__.py"] =
    [join (basename (abspath "/w" "pkg")) "sub/__init__.py"].
Proof.
  apply (init_dfile_matches_build_name "/w" (pkg_opts []) "pkg" "sub/__init__.py"); reflexivity.
Defined.

Lemma bytecode_rejects_target_witness :
  compile_to_bytecode (fun _ => true) "cpython-312" "/w" "notes.txt" "out" false
    (mkState ["/w/notes.txt"] []) =
  (Err (ValueError "Bytecode target must be a .py file or directory"), mkState ["/w/notes.txt"] []).
Proof.
  apply (proj1 (bytecode_rejects_target (fun _ => true) "cpython-312" "/w" "notes.txt" "out" false
                  (mkState ["/w/notes.txt"] []))); reflexivity.
Defined.
